(** * Crypto market dashboard: acquisition and signal core of [src/App.tsx]

    The development follows the component [App]:
    - [CryptoData], [FundingRateData] and the React state cells;
    - [fetchCryptoData], with its two nested [try]/[catch] blocks, the
      fallback dataset [mockCryptoData] and [generateFundingRates];
    - [getFundingSignal] and [getTradeSignal];
    - the polling effect, [formatVolume], the 24h label of a card and
      [openTradingViewChart].

    JavaScript numbers are rationals ([Q]), and every arithmetic operation
    of the source is followed by [fl], the rounding to the nearest binary64
    number (ties to even, subnormal numbers included).  A decimal literal
    that is only compared or stored is written as its decimal value; one
    that enters an operation is rounded first.  [NaN], the infinities and
    overflow are outside the model.  Strings are byte strings, and
    [toUpperCase] and [toLowerCase] act on ASCII letters: they are the
    JavaScript functions on strings of ASCII characters only. *)

From Stdlib Require Import QArith Qabs Qround Qpower Lqa ZArith List String Ascii DecimalString.
From stdpp Require Import gmap strings list fin_maps.

Open Scope string_scope.

(** ** Strings

    [toUpperCase] maps the ASCII letters and leaves every other byte
    alone.  On a string of ASCII characters this is the JavaScript
    function; outside ASCII the Unicode case mapping is not modelled. *)

Definition upper_ascii (c : ascii) : ascii :=
  let n := N_of_ascii c in
  if ((97 <=? n) && (n <=? 122))%N then ascii_of_N (n - 32) else c.

Fixpoint toUpperCase (s : string) : string :=
  match s with
  | EmptyString => EmptyString
  | String c rest => String (upper_ascii c) (toUpperCase rest)
  end.

Definition string_of_nat (n : nat) : string :=
  NilZero.string_of_uint (Nat.to_uint n).

(** [Array.prototype.join] *)
Fixpoint join (sep : string) (l : list string) : string :=
  match l with
  | [] => ""
  | [x] => x
  | x :: rest => x ++ sep ++ join sep rest
  end.

(** ** Data model *)

Module CryptoData.
Record t := mk {
  id : string;
  name : string;
  symbol : string;
  current_price : Q;
  price_change_percentage_24h : Q;
  price_change_percentage_7d : Q;
  total_volume : Q;
  image : string;
  high_24h : Q;
  low_24h : Q;
  ath : Q;
  ath_change_percentage : Q;
  circulating_supply : Q;
  funding_rate : option Q
}.
End CryptoData.

(** [interface FundingRateData { [symbol: string]: number }] *)
Abbreviation FundingRateData := (gmap string Q).

(** The five [useState] cells of [App]. *)
Record AppState := mkAppState {
  cryptoData : list CryptoData.t;
  fundingRates : FundingRateData;
  loading : bool;
  error : option string;
  lastUpdated : Z
}.

(** Initial values of the cells; [now] is the time of the first render. *)
Definition initialState (now : Z) : AppState :=
  {| cryptoData := []; fundingRates := ∅; loading := true;
     error := None; lastUpdated := now |}.

Definition targetCoins : list string :=
  ["bitcoin"; "ethereum"; "binancecoin"; "solana"; "cardano"; "sui";
   "sei-network"; "hype-token"; "dogecoin"; "bonk"].

(** ** The environment of one invocation *)

Record Response := mkResponse {
  ok : bool;
  status : nat;
  statusText : string;
  body : option (list CryptoData.t)   (* [None]: [response.json()] rejects *)
}.

Inductive FetchResult :=
| Resolved (response : Response)
| Rejected (reason : string).

(** Work handed to the event loop by an invocation. *)
Inductive Task :=
| Timeout (delay : Z) (retryCount : nat)   (* [setTimeout(() => fetchCryptoData(n), delay)] *)
| Call (retryCount : nat).                 (* a direct, un-awaited [fetchCryptoData(n)] *)

Inductive LogEntry :=
| Warn (msg : string)
| Error (msg : string)
| Log (msg : string).

Record World := mkWorld {
  state : AppState;
  network : nat -> FetchResult;   (* outcome of the n-th request *)
  requests : list string;         (* URLs requested so far *)
  random : nat -> Q;              (* the n-th value of [Math.random()] *)
  draws : nat;
  clock : Z;                      (* [new Date()] *)
  tasks : list Task;
  console : list LogEntry
}.

Definition with_state (f : AppState -> AppState) (w : World) : World :=
  {| state := f (state w); network := network w; requests := requests w;
     random := random w; draws := draws w; clock := clock w;
     tasks := tasks w; console := console w |}.

(** ** A state-and-exception monad for the component's code *)

Inductive Outcome (A : Type) :=
| Done (a : A)
| Thrown (e : string).
Arguments Done {A} a.
Arguments Thrown {A} e.

Definition M (A : Type) : Type := World -> Outcome A * World.

Definition ret {A} (a : A) : M A := fun w => (Done a, w).

Definition throw {A} (e : string) : M A := fun w => (Thrown e, w).

Definition bind {A B} (c : M A) (k : A -> M B) : M B :=
  fun w =>
    match c w with
    | (Done a, w1) => k a w1
    | (Thrown e, w1) => (Thrown e, w1)
    end.

Definition try_catch {A} (c : M A) (handler : string -> M A) : M A :=
  fun w =>
    match c w with
    | (Done a, w1) => (Done a, w1)
    | (Thrown e, w1) => handler e w1
    end.

(** [try { c } finally { f }] *)
Definition try_finally {A} (c : M A) (f : M unit) : M A :=
  fun w =>
    match c w with
    | (r, w1) =>
        match f w1 with
        | (Done _, w2) => (r, w2)
        | (Thrown e, w2) => (Thrown e, w2)
        end
    end.

Declare Scope js_scope.
Delimit Scope js_scope with js.
Notation "x <- c1 ;; c2" := (bind c1 (fun x => c2))
  (at level 100, c1 at next level, c2 at level 200, right associativity)
  : js_scope.
Notation "c1 ;; c2" := (bind c1 (fun _ => c2))
  (at level 100, c2 at level 200, right associativity) : js_scope.
Open Scope js_scope.

Definition exec {A} (c : M A) (w : World) : World := snd (c w).
Definition result {A} (c : M A) (w : World) : Outcome A := fst (c w).

(** *** Primitive effects *)

Definition setCryptoData (data : list CryptoData.t) : M unit := fun w =>
  (Done tt, with_state (fun s =>
     {| cryptoData := data; fundingRates := fundingRates s;
        loading := loading s; error := error s;
        lastUpdated := lastUpdated s |}) w).

Definition setFundingRates (rates : FundingRateData) : M unit := fun w =>
  (Done tt, with_state (fun s =>
     {| cryptoData := cryptoData s; fundingRates := rates;
        loading := loading s; error := error s;
        lastUpdated := lastUpdated s |}) w).

Definition setLoading (b : bool) : M unit := fun w =>
  (Done tt, with_state (fun s =>
     {| cryptoData := cryptoData s; fundingRates := fundingRates s;
        loading := b; error := error s;
        lastUpdated := lastUpdated s |}) w).

Definition setError (e : option string) : M unit := fun w =>
  (Done tt, with_state (fun s =>
     {| cryptoData := cryptoData s; fundingRates := fundingRates s;
        loading := loading s; error := e;
        lastUpdated := lastUpdated s |}) w).

Definition setLastUpdated (d : Z) : M unit := fun w =>
  (Done tt, with_state (fun s =>
     {| cryptoData := cryptoData s; fundingRates := fundingRates s;
        loading := loading s; error := error s;
        lastUpdated := d |}) w).

(** Reading the cells from a render. *)
Definition useCryptoData : M (list CryptoData.t) := fun w =>
  (Done (cryptoData (state w)), w).

Definition useFundingRates : M FundingRateData := fun w =>
  (Done (fundingRates (state w)), w).

Definition newDate : M Z := fun w => (Done (clock w), w).

Definition Math_random : M Q := fun w =>
  (Done (random w (draws w)),
   {| state := state w; network := network w; requests := requests w;
      random := random w; draws := S (draws w); clock := clock w;
      tasks := tasks w; console := console w |}).

Definition spawn (t : Task) : M unit := fun w =>
  (Done tt,
   {| state := state w; network := network w; requests := requests w;
      random := random w; draws := draws w; clock := clock w;
      tasks := tasks w ++ [t]; console := console w |}).

Definition setTimeout (retryCount : nat) (delay : Z) : M unit :=
  spawn (Timeout delay retryCount).

Definition console_write (e : LogEntry) : M unit := fun w =>
  (Done tt,
   {| state := state w; network := network w; requests := requests w;
      random := random w; draws := draws w; clock := clock w;
      tasks := tasks w; console := console w ++ [e] |}).

(** [await fetch(url, ...)]: a rejected promise is a thrown exception. *)
Definition fetch (url : string) : M Response := fun w =>
  let w1 :=
    {| state := state w; network := network w;
       requests := requests w ++ [url];
       random := random w; draws := draws w; clock := clock w;
       tasks := tasks w; console := console w |} in
  match network w (length (requests w)) with
  | Resolved r => (Done r, w1)
  | Rejected e => (Thrown e, w1)
  end.

(** [await response.json()] *)
Definition json (r : Response) : M (list CryptoData.t) :=
  match body r with
  | Some data => ret data
  | None => throw "SyntaxError: Unexpected token in JSON"
  end.

(** ** Binary64 arithmetic

    The result of an operation on doubles is the exact result rounded to
    the nearest double, the one with an even significand on a tie.  A
    positive number with exponent [e] is a multiple of [2^e] with a
    53-bit significand; below [2^-1022] the exponent stays at [-1074]. *)

Definition pow2 (k : Z) : Q := (2 ^ k)%Q.

(** [floor (log2 x)], for [x > 0]. *)
Definition ilog2 (x : Q) : Z :=
  let k := (Z.log2 (Qnum x) - Z.log2 (Zpos (Qden x)))%Z in
  if Qle_bool (pow2 k) x then k else (k - 1)%Z.

(** The nearest integer, the even one on a tie. *)
Definition rne (y : Q) : Z :=
  let n := Qfloor y in
  match Qcompare (y - inject_Z n) (1 # 2) with
  | Lt => n
  | Gt => (n + 1)%Z
  | Eq => if Z.even n then n else (n + 1)%Z
  end.

(** The exponent of the last bit of the double nearest to [x > 0]. *)
Definition expo (x : Q) : Z := Z.max (ilog2 x - 52) (-1074).

Definition fl_pos (x : Q) : Q :=
  (inject_Z (rne (x / pow2 (expo x))) * pow2 (expo x))%Q.

Definition fl (x : Q) : Q :=
  Qred match Qcompare x 0 with
       | Gt => fl_pos x
       | Lt => (- fl_pos (- x))%Q
       | Eq => 0%Q
       end.

(** ** [fetchCryptoData] *)

Definition coinsParam : string := join "," targetCoins.

Definition apiUrl : string :=
  "https://api.coingecko.com/api/v3/coins/markets?vs_currency=usd&ids="
  ++ coinsParam
  ++ "&order=market_cap_desc&sparkline=false&price_change_percentage=24h,7d".

Definition coin (id name symbol : string)
    (current_price price_change_percentage_24h price_change_percentage_7d
     total_volume : Q) (image : string)
    (high_24h low_24h ath ath_change_percentage circulating_supply : Q)
  : CryptoData.t :=
  CryptoData.mk id name symbol current_price price_change_percentage_24h
    price_change_percentage_7d total_volume image high_24h low_24h ath
    ath_change_percentage circulating_supply None.

(** The fallback dataset of the inner [catch]. *)
Definition mockCryptoData : list CryptoData.t :=
  [ coin "bitcoin" "Bitcoin" "btc" 43250.67 2.34 (-1.23) 18500000000
      "https://assets.coingecko.com/coins/images/1/large/bitcoin.png"
      44100.50 42800.25 69045.00 (-37.4) 19750000;
    coin "ethereum" "Ethereum" "eth" 2567.89 (-0.87) 3.45 12300000000
      "https://assets.coingecko.com/coins/images/279/large/ethereum.png"
      2620.45 2540.12 4878.26 (-47.4) 120400000;
    coin "binancecoin" "BNB" "bnb" 315.42 1.56 (-2.1) 890000000
      "https://assets.coingecko.com/coins/images/825/large/bnb-icon2_2x.png"
      320.15 310.80 686.31 (-54.0) 153856150;
    coin "solana" "Solana" "sol" 98.76 4.23 8.91 2100000000
      "https://assets.coingecko.com/coins/images/4128/large/solana.png"
      102.45 94.20 259.96 (-62.0) 467000000;
    coin "cardano" "Cardano" "ada" 0.4567 (-1.23) 2.34 450000000
      "https://assets.coingecko.com/coins/images/975/large/cardano.png"
      0.4720 0.4450 3.09 (-85.2) 35000000000;
    coin "sui" "Sui" "sui" 3.45 6.78 12.34 180000000
      "https://assets.coingecko.com/coins/images/26375/large/sui_asset.jpeg"
      3.67 3.21 4.96 (-30.4) 2800000000;
    coin "sei-network" "Sei" "sei" 0.4234 (-2.45) 5.67 95000000
      "https://assets.coingecko.com/coins/images/28205/large/sei.png"
      0.4456 0.4123 1.14 (-62.9) 3800000000;
    coin "hype-token" "Hyperliquid" "hype" 28.67 8.91 (-3.45) 320000000
      "https://assets.coingecko.com/coins/images/34437/large/hype.png"
      30.12 26.45 34.78 (-17.6) 270000000;
    coin "dogecoin" "Dogecoin" "doge" 0.0789 3.45 (-1.23) 890000000
      "https://assets.coingecko.com/coins/images/5/large/dogecoin.png"
      0.0812 0.0756 0.7376 (-89.3) 147000000000;
    coin "bonk" "Bonk" "bonk" 0.00003456 12.34 23.45 67000000
      "https://assets.coingecko.com/coins/images/28600/large/bonk.jpg"
      0.00003678 0.00003123 0.00004704 (-26.5) 75000000000000 ]%Q.

(** [baseRates], in the order [Object.entries] walks it. *)
Definition baseRates : list (string * Q) :=
  [ ("BTC", 0.0123); ("ETH", -0.0087); ("BNB", 0.0034); ("SOL", -0.0156);
    ("ADA", 0.0089); ("SUI", -0.0023); ("SEI", 0.0067); ("HYPE", -0.0134);
    ("DOGE", 0.0045); ("BONK", -0.0078) ]%Q.

(** The [forEach] over the entries: one [Math.random()] per entry. *)
Fixpoint forEach_rate (entries : list (string * Q)) (rates : FundingRateData)
  : M FundingRateData :=
  match entries with
  | [] => ret rates
  | (symbol, baseRate) :: rest =>
      u <- Math_random ;;
      let variation := fl (fl (u - 0.5) * fl 0.002) in
      forEach_rate rest (<[symbol := fl (fl baseRate + variation)]> rates)
  end.

Definition generateFundingRates : M FundingRateData :=
  forEach_rate baseRates ∅.

(** The outer [catch] block.  [seen] is the value of [cryptoData] bound in
    the render whose closure is running: the setters write the cells, the
    closure keeps reading [seen]. *)
Definition on_error (seen : list CryptoData.t) (retryCount : nat)
    (err : string) : M unit :=
  console_write (Error ("Crypto data fetch error: " ++ err)) ;;
  if (retryCount <? 3)%nat then
    let delay := (2 ^ Z.of_nat retryCount * 1000)%Z in
    console_write
      (Log ("Retrying in " ++ string_of_nat (Z.to_nat delay)
            ++ "ms... (attempt " ++ string_of_nat (retryCount + 1)
            ++ "/3)")) ;;
    setTimeout (retryCount + 1) delay
  else
    setError (Some ("Connection failed after "
                    ++ string_of_nat (retryCount + 1)
                    ++ " attempts. Using offline data.")) ;;
    if (length seen =? 0)%nat then spawn (Call 0) else ret tt.

Definition fetchCryptoData (seen : list CryptoData.t) (retryCount : nat)
  : M unit :=
  try_finally
    (try_catch
       (setError None ;;
        try_catch
          (response <- fetch apiUrl ;;
           (if negb (ok response)
            then throw ("HTTP " ++ string_of_nat (status response) ++ ": "
                        ++ statusText response)
            else ret tt) ;;
           data <- json response ;;
           setCryptoData data)
          (fun fetchError =>
             console_write
               (Warn ("Direct API fetch failed, using fallback data: "
                      ++ fetchError)) ;;
             setCryptoData mockCryptoData) ;;
        rates <- generateFundingRates ;;
        setFundingRates rates ;;
        now <- newDate ;;
        setLastUpdated now)
       (on_error seen retryCount))
    (setLoading false).

(** ** Signals *)

Record TradeSignal := mkSignal {
  signal : string;
  color : string;
  bgColor : string
}.

Definition BUY : TradeSignal :=
  {| signal := "BUY"; color := "text-green-500";
     bgColor := "bg-green-500/10" |}.

Definition SELL : TradeSignal :=
  {| signal := "SELL"; color := "text-red-500";
     bgColor := "bg-red-500/10" |}.

(** [!rate] for [rate : number | undefined]. *)
Definition falsy (rate : option Q) : bool :=
  match rate with
  | None => true
  | Some r => Qeq_bool r 0
  end.

Definition getFundingSignal (symbol : string) : M (option TradeSignal) :=
  rates <- useFundingRates ;;
  let rate := rates !! toUpperCase symbol in
  if falsy rate then ret None
  else
    match rate with
    | Some r =>
        if Qle_bool 0.005 r then ret (Some SELL)
        else if Qle_bool r (-0.005) then ret (Some BUY)
        else ret None
    | None => ret None   (* [undefined] is falsy: not reached *)
    end.

(** The predicate of [cryptoData.find]. *)
Definition same_symbol (symbol : string) (c : CryptoData.t) : bool :=
  toUpperCase (CryptoData.symbol c) =? toUpperCase symbol.

Definition getTradeSignal (symbol : string) : M (option TradeSignal) :=
  rates <- useFundingRates ;;
  let rate := rates !! toUpperCase symbol in
  if falsy rate then
    records <- useCryptoData ;;
    let crypto := find (same_symbol symbol) records in
    match crypto with
    | Some c =>
        if Qle_bool 2 (CryptoData.price_change_percentage_24h c)
        then ret (Some BUY)
        else if Qle_bool (CryptoData.price_change_percentage_24h c) (-2)
        then ret (Some SELL)
        else ret (Some (if toUpperCase symbol =? "BNB" then BUY else SELL))
    | None =>
        ret (Some (if toUpperCase symbol =? "BNB" then BUY else SELL))
    end
  else
    match rate with
    | Some r =>
        if Qle_bool 0.005 r then ret (Some SELL)
        else if Qle_bool r (-0.005) then ret (Some BUY)
        else ret None
    | None => ret None   (* [undefined] is falsy: not reached *)
    end.

(** ** The event loop of one episode

    An episode starts with one invocation and runs every task the
    invocations leave behind, oldest first; timers fire in the order they
    were set. *)

Definition task_arg (t : Task) : nat :=
  match t with
  | Timeout _ retryCount => retryCount
  | Call retryCount => retryCount
  end.

Definition is_retry (t : Task) : bool :=
  match t with
  | Timeout _ _ => true
  | Call _ => false
  end.

Fixpoint run_episode (fuel : nat) (seen : list CryptoData.t)
    (pending : list nat) (w : World) : option World :=
  match pending with
  | [] => Some w
  | retryCount :: rest =>
      match fuel with
      | O => None
      | S fuel' =>
          let w1 := exec (fetchCryptoData seen retryCount) w in
          let fresh := skipn (length (tasks w)) (tasks w1) in
          run_episode fuel' seen (rest ++ map task_arg fresh) w1
      end
  end.

(** Retries scheduled between two worlds of one run. *)
Definition retries_scheduled (w w' : World) : nat :=
  length (filter (fun t => is_retry t = true)
                 (skipn (length (tasks w)) (tasks w'))).

(** ** Outcomes of the request *)

(** Non-success HTTP outcome or transport failure. *)
Definition fetch_fails (r : FetchResult) : Prop :=
  match r with
  | Resolved response => ok response = false
  | Rejected _ => True
  end.

(** What the inner [try] hands to [setCryptoData], if it gets that far. *)
Definition payload (r : FetchResult) : option (list CryptoData.t) :=
  match r with
  | Resolved response => if ok response then body response else None
  | Rejected _ => None
  end.

(** The request an invocation started in [w] will see. *)
Definition next_fetch (w : World) : FetchResult :=
  network w (length (requests w)).

(** ** Worlds used in the examples *)

Definition offline : World :=
  {| state := initialState 0;
     network := fun _ => Rejected "TypeError: Failed to fetch";
     requests := []; random := fun _ => 0.5%Q; draws := 0; clock := 0;
     tasks := []; console := [] |}.

Definition serving (data : list CryptoData.t) : World :=
  {| state := initialState 0;
     network := fun _ => Resolved (mkResponse true 200 "OK" (Some data));
     requests := []; random := fun _ => 0.5%Q; draws := 0; clock := 0;
     tasks := []; console := [] |}.

Definition rendering (rates : FundingRateData) (records : list CryptoData.t)
  : World :=
  {| state := {| cryptoData := records; fundingRates := rates;
                 loading := false; error := None; lastUpdated := 0 |};
     network := fun _ => Rejected "TypeError: Failed to fetch";
     requests := []; random := fun _ => 0.5%Q; draws := 0; clock := 0;
     tasks := []; console := [] |}.

(** A rendered snapshot with the two base rates of the scenarios. *)
Definition btc_eth_render : World :=
  rendering (<["BTC" := 0.0123%Q]> (<["ETH" := (-0.0087)%Q]> ∅))
            mockCryptoData.

(** SUI carries its in-band base rate; the records are the fallback ones. *)
Definition sui_in_band_render : World :=
  rendering {["SUI" := (-0.0023)%Q]} mockCryptoData.

(** The same snapshots under different values of the other cells. *)
Definition sui_in_band_busy : World :=
  exec (setLoading true) (exec (setError (Some "x")) sui_in_band_render).

(** SOL carries a rate of exactly 0. *)
Definition sol_zero_render : World :=
  rendering {["SOL" := 0%Q]} mockCryptoData.

(** A 200 response that carries only the first nine target coins. *)
Definition partial_response : World := serving (take 9 mockCryptoData).

(** ** Vocabulary of the properties *)

(** The rate [forEach_rate] stores for base rate [baseRate] and draw [u]. *)
Definition noisy (baseRate u : Q) : Q :=
  fl (fl baseRate + fl (fl (u - 0.5) * fl 0.002)).

(** The map [forEach_rate] builds, as a function of the random stream. *)
Fixpoint noisy_rates (entries : list (string * Q)) (rand : nat -> Q)
    (i : nat) (rates : FundingRateData) : FundingRateData :=
  match entries with
  | [] => rates
  | (symbol, baseRate) :: rest =>
      noisy_rates rest rand (S i)
        (<[symbol := noisy baseRate (rand i)]> rates)
  end.

Definition advance (n : nat) (w : World) : World :=
  {| state := state w; network := network w; requests := requests w;
     random := random w; draws := n + draws w; clock := clock w;
     tasks := tasks w; console := console w |}.

(** The cells after an invocation started in [w]. *)
Definition cells_after (w : World) : AppState :=
  {| cryptoData :=
       match payload (next_fetch w) with
       | Some data => data
       | None => mockCryptoData
       end;
     fundingRates := noisy_rates baseRates (random w) (draws w) ∅;
     loading := false;
     error := None;
     lastUpdated := clock w |}.

(** The reading of the retry rule where a failed request at attempt
    [retryCount] leaves the records alone and sets one timer of
    [2^retryCount] seconds for attempt [retryCount + 1]. *)
Definition retries_before_fallback (seen : list CryptoData.t)
    (retryCount : nat) (w : World) : Prop :=
  fetch_fails (next_fetch w) ->
  (retryCount < 3)%nat ->
  let w' := exec (fetchCryptoData seen retryCount) w in
  cryptoData (state w') = cryptoData (state w) /\
  tasks w' = (tasks w ++ [Timeout (2 ^ Z.of_nat retryCount * 1000)
                                  (retryCount + 1)])%list.

(** The fallback dataset: 10 records, one per target coin, in order. *)
Definition is_fallback (records : list CryptoData.t) : Prop :=
  records = mockCryptoData /\
  length records = 10%nat /\
  map CryptoData.id records = targetCoins.

(** The reading of C7: whenever the cycle replaces the snapshot, the
    records are one per target coin, in the configured order. *)
Definition snapshot_complete (seen : list CryptoData.t) (retryCount : nat)
    (w : World) : Prop :=
  map CryptoData.id
      (cryptoData (state (exec (fetchCryptoData seen retryCount) w)))
  = targetCoins.

Abbreviation change24h := CryptoData.price_change_percentage_24h.

(** The fixed default of the no-funding path. *)
Definition default_signal (symbol : string) : TradeSignal :=
  if toUpperCase symbol =? "BNB" then BUY else SELL.

(** The reading of C3: a symbol other than the two named ones, with no
    funding-rate entry and no momentum, gets no signal. *)
Definition default_only_for_named (symbol : string) (w : World) : Prop :=
  toUpperCase symbol <> "BNB" ->
  toUpperCase symbol <> "SUI" ->
  fundingRates (state w) !! toUpperCase symbol = None ->
  (forall c, find (same_symbol symbol) (cryptoData (state w)) = Some c ->
             (-2 < change24h c)%Q /\ (change24h c < 2)%Q) ->
  result (getTradeSignal symbol) w = Done None.

Definition xrp : CryptoData.t :=
  coin "ripple" "XRP" "xrp" 0.5 0.5 0 1000000 "" 0.5 0.5 3.4 (-85) 1000000.

(** ** The polling effect

    [useEffect(() => { fetchCryptoData(); const interval =
    setInterval(fetchCryptoData, 5000); ... }, [])].  The effect runs once,
    after the first render, so every call it makes comes from the closure
    of that render, where [cryptoData] is the initial [[]]; the interval
    passes no argument, so [retryCount] takes its default 0.  The queue
    holds the call at mount and [ticks] firings of the interval; an
    invocation is run as one step, at the moment its request settles. *)

Definition first_render_seen : list CryptoData.t :=
  cryptoData (initialState 0).

Definition polling_queue (ticks : nat) : list nat := repeat 0%nat (S ticks).

Definition polling (fuel ticks : nat) (w : World) : option World :=
  run_episode fuel first_render_seen (polling_queue ticks) w.

(** ** More vocabulary *)

(** The invocations of a queue, one after the other. *)
Definition run_all (seen : list CryptoData.t) (pending : list nat)
    (w : World) : World :=
  fold_left (fun w retryCount => exec (fetchCryptoData seen retryCount) w)
            pending w.

(** The message of the exception the inner [try] raises, if it raises. *)
Definition failure_text (r : FetchResult) : option string :=
  match r with
  | Rejected reason => Some reason
  | Resolved response =>
      if ok response then
        match body response with
        | Some _ => None
        | None => Some "SyntaxError: Unexpected token in JSON"
        end
      else Some ("HTTP " ++ string_of_nat (status response) ++ ": "
                 ++ statusText response)
  end.

(** What an invocation writes to the console. *)
Definition console_after (r : FetchResult) : list LogEntry :=
  match failure_text r with
  | Some e => [Warn ("Direct API fetch failed, using fallback data: " ++ e)]
  | None => []
  end.

(** The world an invocation started in [w] leaves. *)
Definition world_after (w : World) : World :=
  {| state := cells_after w;
     network := network w;
     requests := requests w ++ [apiUrl];
     random := random w;
     draws := length baseRates + draws w;
     clock := clock w;
     tasks := tasks w;
     console := console w ++ console_after (next_fetch w) |}.

(** [offline] with the random source at its lowest value. *)
Definition zero_noise : World :=
  {| state := initialState 0;
     network := fun _ => Rejected "TypeError: Failed to fetch";
     requests := []; random := fun _ => 0%Q; draws := 0; clock := 0;
     tasks := []; console := [] |}.

(** [offline] with every draw equal to [u]. *)
Definition constant_noise (u : Q) : World :=
  {| state := initialState 0;
     network := fun _ => Rejected "TypeError: Failed to fetch";
     requests := []; random := fun _ => u; draws := 0; clock := 0;
     tasks := []; console := [] |}.

(** The reading of C8's bound: every generated rate is within 0.001 of
    the base rate of its symbol. *)
Definition noise_within_permille (seen : list CryptoData.t)
    (retryCount : nat) (w : World) : Prop :=
  (forall i, 0 <= random w i /\ random w i < 1)%Q ->
  forall symbol baseRate,
    (symbol, baseRate) ∈ baseRates ->
    exists rate,
      fundingRates (state (exec (fetchCryptoData seen retryCount) w))
        !! symbol = Some rate /\
      (Qabs (rate - fl baseRate) <= 0.001)%Q.

(** 0.001 and one unit in the eighteenth decimal place. *)
Definition noise_bound : Q := 0.001000000000000001%Q.

(** Both extremes inside the band, on one side of zero. *)
Definition quiet_extremes (lo hi : Q) : bool :=
  (negb (Qle_bool lo 0) && negb (Qle_bool 0.005 hi))
  || (negb (Qle_bool lo (-0.005)) && negb (Qle_bool 0 hi)).

(** A random source as [Math.random] promises it: values in [0, 1). *)
Definition unit_interval (rand : nat -> Q) : Prop :=
  forall i, (0 <= rand i)%Q /\ (rand i < 1)%Q.


(** A 404 answer, and a world that receives it. *)
Definition not_found : Response := mkResponse false 404 "Not Found" None.

Definition missing_endpoint : World :=
  {| state := initialState 0;
     network := fun _ => Resolved not_found;
     requests := []; random := fun _ => 0.5%Q; draws := 0; clock := 7;
     tasks := []; console := [] |}.

(** [offline] after an earlier refresh: other cells, same environment. *)
Definition offline_later : World :=
  exec (setCryptoData [xrp]) (exec (setError (Some "stale")) offline).

(** ** Presentation helpers

    Three host functions are taken as parameters: the text of an object
    inherited from [Object.prototype] (it depends on the engine), the
    exponent form [Number::toString] gives from 10^21 on, and the
    locale-dependent [toLocaleString]. *)

(** [toLowerCase], on ASCII letters, as [toUpperCase] above. *)
Definition lower_ascii (c : ascii) : ascii :=
  let n := N_of_ascii c in
  if ((65 <=? n) && (n <=? 90))%N then ascii_of_N (n + 32) else c.

Fixpoint toLowerCase (s : string) : string :=
  match s with
  | EmptyString => EmptyString
  | String c rest => String (lower_ascii c) (toLowerCase rest)
  end.

(** Strings of ASCII characters, where the two case functions are the
    JavaScript ones. *)
Fixpoint is_ascii_string (s : string) : bool :=
  match s with
  | EmptyString => true
  | String c rest => (N_of_ascii c <? 128)%N && is_ascii_string rest
  end.

Definition string_of_Z (n : Z) : string :=
  NilZero.string_of_uint (N.to_uint (Z.to_N n)).

Fixpoint zeros (k : nat) : string :=
  match k with
  | O => ""
  | S k' => "0" ++ zeros k'
  end.

Definition pow10 (f : nat) : Q := inject_Z (10 ^ Z.of_nat f).

(** The arguments of [window.open]. *)
Record WindowOpen := mkWindowOpen {
  url : string;
  target : string;
  features : string
}.

Section Host.

Variable inherited_text : string -> string.
Variable Number_toString : Q -> string.
Variable toLocaleString : Q -> string.

(** [Number.prototype.toFixed], step by step as ECMA-262 words it, on the
    exact value of the number. *)
Definition toFixed (x : Q) (fractionDigits : nat) : string :=
  let f := fractionDigits in
  let s := if Qle_bool 0 x then "" else "-" in
  let x := if Qle_bool 0 x then x else (- x)%Q in
  if Qle_bool (pow10 21) x then s ++ Number_toString x
  else
    (* the integer n with n / 10^f closest to x, the larger one on a tie *)
    let n := Qfloor (x * pow10 f + 1 / 2)%Q in
    let m := string_of_Z n in
    if (f =? 0)%nat then s ++ m
    else
      let m := zeros (f + 1 - String.length m) ++ m in
      let k := String.length m in
      s ++ substring 0 (k - f) m ++ "." ++ substring (k - f) f m.

Definition formatVolume (volume : Q) : string :=
  if Qle_bool 1e9 volume then
    "$" ++ toFixed (fl (volume / 1e9)) 2 ++ "B"
  else if Qle_bool 1e6 volume then
    "$" ++ toFixed (fl (volume / 1e6)) 2 ++ "M"
  else "$" ++ toLocaleString volume.

(** The text of the 24h line of a card:
    [{change >= 0 ? '+' : ''}{change.toFixed(2)}%]. *)
Definition change24hLabel (crypto : CryptoData.t) : string :=
  (if Qle_bool 0 (CryptoData.price_change_percentage_24h crypto)
   then "+" else "")
  ++ toFixed (CryptoData.price_change_percentage_24h crypto) 2 ++ "%".

(** [symbolMap], an object literal: its own keys, then the two keys that
    a lower-cased name can reach on [Object.prototype]. *)
Definition symbolMap_own : gmap string string :=
  list_to_map
    [ ("btc", "BTCUSDT"); ("eth", "ETHUSDT"); ("bnb", "BNBUSDT");
      ("sol", "SOLUSDT"); ("ada", "ADAUSDT"); ("sui", "SUIUSDT");
      ("sei", "SEIUSDT"); ("hype", "HYPEUSDT"); ("doge", "DOGEUSDT");
      ("bonk", "BONKUSDT") ].

Definition inherited_keys : list string := ["constructor"; "__proto__"].

Definition symbolMap (key : string) : option string :=
  match symbolMap_own !! key with
  | Some v => Some v
  | None =>
      if bool_decide (key ∈ inherited_keys)
      then Some (inherited_text key)
      else None
  end.

(** [symbolMap[symbol.toLowerCase()] || `${symbol.toUpperCase()}USDT`];
    every value of the map is truthy. *)
Definition tradingViewSymbol (symbol : string) : string :=
  match symbolMap (toLowerCase symbol) with
  | Some v => v
  | None => toUpperCase symbol ++ "USDT"
  end.

Definition tradingViewUrl_prefix : string :=
  "https://www.tradingview.com/chart/?symbol=BINANCE:".

Definition tradingViewUrl_suffix : string :=
  "&interval=1h&studies_overrides=%7B%22volume.volume.color.0%22%3A%22rgba(47%2C133%2C90%2C0.8)%22%2C%22volume.volume.color.1%22%3A%22rgba(235%2C77%2C92%2C0.8)%22%7D&overrides=%7B%22mainSeriesProperties.candleStyle.upColor%22%3A%22%2326a69a%22%2C%22mainSeriesProperties.candleStyle.downColor%22%3A%22%23ef4444%22%2C%22mainSeriesProperties.candleStyle.borderUpColor%22%3A%22%2326a69a%22%2C%22mainSeriesProperties.candleStyle.borderDownColor%22%3A%22%23ef4444%22%2C%22mainSeriesProperties.candleStyle.wickUpColor%22%3A%22%2326a69a%22%2C%22mainSeriesProperties.candleStyle.wickDownColor%22%3A%22%23ef4444%22%7D&studies=%5B%7B%22id%22%3A%22CPR%40tv-basicstudies%22%2C%22version%22%3A%2246.0%22%2C%22inputs%22%3A%7B%7D%7D%5D&theme=dark".

Definition tradingViewUrl (symbol : string) : string :=
  tradingViewUrl_prefix ++ tradingViewSymbol symbol ++ tradingViewUrl_suffix.

Definition openTradingViewChart (symbol : string) : WindowOpen :=
  {| url := tradingViewUrl symbol;
     target := "_blank";
     features := "noopener,noreferrer" |}.

End Host.

(** Stand-ins for the host functions in the examples. *)
Definition v8_inherited_text (key : string) : string :=
  if key =? "constructor" then "function Object() { [native code] }"
  else "[object Object]".

Definition no_text (x : Q) : string := "".

(** * Properties *)

(** ** Binary64 rounding is monotone *)

Section Rounding.
Local Open Scope Q_scope.

Lemma pow2_pos k : 0 < pow2 k.
Proof. apply Qpower_0_lt. reflexivity. Qed.

Lemma pow2_plus a b : pow2 (a + b) == pow2 a * pow2 b.
Proof. apply Qpower_plus. discriminate. Qed.

Lemma pow2_le a b : (a <= b)%Z -> pow2 a <= pow2 b.
Proof. intros H. apply Qpower_le_compat_l; [exact H | discriminate]. Qed.

Lemma pow2_lt_inv a b : pow2 a < pow2 b -> (a < b)%Z.
Proof. intros H. apply (Qpower_lt_compat_l_inv 2); [exact H | reflexivity]. Qed.

Lemma pow2_succ a : pow2 (a + 1) == 2 * pow2 a.
Proof. rewrite pow2_plus. change (pow2 1) with 2. ring. Qed.

Lemma pow2_Z k : (0 <= k)%Z -> pow2 k == inject_Z (2 ^ k).
Proof. intros H. unfold pow2. rewrite Zpower_Qpower by exact H. reflexivity. Qed.

Lemma log2_bounds (n : Z) :
  (0 < n)%Z ->
  pow2 (Z.log2 n) <= inject_Z n /\ inject_Z n < 2 * pow2 (Z.log2 n).
Proof.
  intros Hn. destruct (Z.log2_spec n Hn) as [Hlo Hhi].
  pose proof (Z.log2_nonneg n) as Hnn.
  rewrite <- pow2_succ.
  rewrite !pow2_Z by lia. rewrite <- Zle_Qle, <- Zlt_Qlt.
  split; [exact Hlo|]. replace (Z.log2 n + 1)%Z with (Z.succ (Z.log2 n)) by lia.
  exact Hhi.
Qed.

Lemma ilog2_spec x :
  0 < x -> pow2 (ilog2 x) <= x /\ x < pow2 (ilog2 x + 1).
Proof.
  intros Hx. unfold ilog2.
  destruct x as [p q]. cbn [Qnum Qden].
  assert (Hp : (0 < p)%Z).
  { unfold Qlt in Hx. cbn in Hx. lia. }
  set (a := Z.log2 p). set (b := Z.log2 (Z.pos q)).
  destruct (log2_bounds p Hp) as [HA1 HA2]. fold a in HA1, HA2.
  destruct (log2_bounds (Z.pos q) eq_refl) as [HB1 HB2]. fold b in HB1, HB2.
  assert (HK : pow2 (a - b) * pow2 b == pow2 a).
  { rewrite <- pow2_plus. replace (a - b + b)%Z with a by lia. reflexivity. }
  assert (Hx2 : (p # q) * inject_Z (Z.pos q) == inject_Z p).
  { unfold Qeq, inject_Z. cbn. lia. }
  pose proof (pow2_pos (a - b)) as HKpos.
  pose proof (pow2_pos b) as HBpos.
  pose proof (pow2_pos a) as HApos.
  set (x := p # q) in *. set (K := pow2 (a - b)) in *.
  set (A := pow2 a) in *. set (B := pow2 b) in *.
  set (P := inject_Z p) in *. set (D := inject_Z (Z.pos q)) in *.
  assert (Hup : x < 2 * K).
  { apply Qnot_le_lt. intros Hc. nra. }
  assert (Hdn : K < 2 * x).
  { apply Qnot_le_lt. intros Hc. nra. }
  destruct (Qle_bool K x) eqn:E.
  - apply Qle_bool_iff in E. split; [exact E|]. rewrite pow2_succ. exact Hup.
  - assert (Hlt : x < K).
    { apply Qnot_le_lt. intros Hc. apply Qle_bool_iff in Hc. congruence. }
    replace (a - b - 1 + 1)%Z with (a - b)%Z by lia. fold K.
    split; [|exact Hlt].
    assert (Hhalf : 2 * pow2 (a - b - 1) == K).
    { rewrite <- pow2_succ. replace (a - b - 1 + 1)%Z with (a - b)%Z by lia.
      reflexivity. }
    lra.
Qed.

Lemma rne_bounds y : (Qfloor y <= rne y <= Qfloor y + 1)%Z.
Proof.
  unfold rne. destruct (Qcompare _ _); [destruct (Z.even _)| |]; lia.
Qed.

Lemma rne_Z n : rne (inject_Z n) = n.
Proof.
  unfold rne. rewrite Qfloor_Z.
  assert (H : inject_Z n - inject_Z n < 1 # 2) by lra.
  rewrite Qlt_alt in H. rewrite H. reflexivity.
Qed.

Lemma rne_mono y1 y2 : y1 <= y2 -> (rne y1 <= rne y2)%Z.
Proof.
  intros Hle.
  pose proof (Qfloor_resp_le _ _ Hle) as Hfl.
  pose proof (rne_bounds y1) as B1. pose proof (rne_bounds y2) as B2.
  destruct (Z.eq_dec (Qfloor y1) (Qfloor y2)) as [Heq|Hne]; [|lia].
  unfold rne in *. rewrite <- Heq in *.
  destruct (Qcompare_spec (y1 - inject_Z (Qfloor y1)) (1 # 2)) as [E1|E1|E1];
  destruct (Qcompare_spec (y2 - inject_Z (Qfloor y1)) (1 # 2)) as [E2|E2|E2];
    try lia; try lra;
    destruct (Z.even (Qfloor y1)); lia.
Qed.

Lemma div_pow2 x e : x / pow2 e * pow2 e == x.
Proof.
  pose proof (pow2_pos e). field. intros Hc. rewrite Hc in H. lra.
Qed.

Lemma expo_upper x : 0 < x -> x < pow2 (expo x + 53).
Proof.
  intros Hx. destruct (ilog2_spec x Hx) as [_ Hhi].
  eapply Qlt_le_trans; [exact Hhi|]. apply pow2_le. unfold expo. lia.
Qed.

Lemma expo_lower x :
  0 < x -> (-1074 < expo x)%Z -> pow2 (expo x + 52) <= x.
Proof.
  intros Hx He. destruct (ilog2_spec x Hx) as [Hlo _].
  eapply Qle_trans; [|exact Hlo]. apply pow2_le. unfold expo in *. lia.
Qed.

Lemma expo_mono x y : 0 < x -> x <= y -> (expo x <= expo y)%Z.
Proof.
  intros Hx Hle.
  assert (Hy : 0 < y) by lra.
  destruct (ilog2_spec x Hx) as [Hlo _].
  destruct (ilog2_spec y Hy) as [_ Hhi].
  assert (H : pow2 (ilog2 x) < pow2 (ilog2 y + 1)) by lra.
  apply pow2_lt_inv in H. unfold expo. lia.
Qed.

Lemma scaled_le x y e : x <= y -> x / pow2 e <= y / pow2 e.
Proof.
  intros H. pose proof (pow2_pos e) as Hp.
  pose proof (div_pow2 x e). pose proof (div_pow2 y e).
  apply Qnot_lt_le. intros Hc. nra.
Qed.

Lemma fl_pos_mono x y : 0 < x -> x <= y -> fl_pos x <= fl_pos y.
Proof.
  intros Hx Hle. assert (Hy : 0 < y) by lra.
  unfold fl_pos.
  pose proof (expo_mono x y Hx Hle) as He.
  destruct (Z.eq_dec (expo x) (expo y)) as [Heq|Hne].
  - rewrite Heq. pose proof (pow2_pos (expo y)) as Hp.
    pose proof (rne_mono _ _ (scaled_le x y (expo y) Hle)) as Hr.
    rewrite Zle_Qle in Hr. nra.
  - assert (Hlt : (expo x < expo y)%Z) by lia.
    pose proof (expo_upper x Hx) as Hux.
    pose proof (expo_lower y Hy ltac:(unfold expo in *; lia)) as Hly.
    pose proof (pow2_pos (expo x)) as Hpx.
    pose proof (pow2_pos (expo y)) as Hpy.
    (* left side is at most 2^(ex+53) *)
    assert (H1 : x / pow2 (expo x) <= inject_Z (2 ^ 53)).
    { rewrite <- pow2_Z by lia.
      pose proof (div_pow2 x (expo x)) as Hd.
      rewrite (Z.add_comm (expo x) 53), pow2_plus in Hux.
      apply Qnot_lt_le. intros Hc. nra. }
    apply rne_mono in H1. rewrite rne_Z in H1. rewrite Zle_Qle in H1.
    rewrite <- pow2_Z in H1 by lia.
    (* right side is at least 2^(ey+52) *)
    assert (H2 : inject_Z (2 ^ 52) <= y / pow2 (expo y)).
    { rewrite <- pow2_Z by lia.
      pose proof (div_pow2 y (expo y)) as Hd.
      rewrite (Z.add_comm (expo y) 52), pow2_plus in Hly.
      apply Qnot_lt_le. intros Hc. nra. }
    apply rne_mono in H2. rewrite rne_Z in H2. rewrite Zle_Qle in H2.
    rewrite <- pow2_Z in H2 by lia.
    assert (H3 : pow2 53 * pow2 (expo x) <= pow2 52 * pow2 (expo y)).
    { rewrite <- !pow2_plus. apply pow2_le. lia. }
    pose proof (pow2_pos 52). pose proof (pow2_pos 53).
    apply Qle_trans with (pow2 53 * pow2 (expo x)); [nra|].
    apply Qle_trans with (pow2 52 * pow2 (expo y)); [exact H3|nra].
Qed.

Lemma fl_pos_nonneg x : 0 < x -> 0 <= fl_pos x.
Proof.
  intros Hx. unfold fl_pos.
  pose proof (pow2_pos (expo x)) as Hp.
  assert (H : 0 <= x / pow2 (expo x)).
  { pose proof (div_pow2 x (expo x)). apply Qnot_lt_le. intros Hc. nra. }
  apply rne_mono in H. change 0 with (inject_Z 0) in H at 1.
  rewrite rne_Z in H. rewrite Zle_Qle in H. change (inject_Z 0) with 0 in H.
  nra.
Qed.

Lemma fl_mono x y : x <= y -> fl x <= fl y.
Proof.
  intros Hle. unfold fl. rewrite !Qred_correct.
  destruct (Qcompare_spec x 0) as [Ex|Ex|Ex];
  destruct (Qcompare_spec y 0) as [Ey|Ey|Ey]; try lra.
  - exact (fl_pos_nonneg y Ey).
  - pose proof (fl_pos_nonneg (- x) ltac:(lra)) as H.
    revert H. generalize (fl_pos (- x)). intros a H. lra.
  - assert (H : fl_pos (- y) <= fl_pos (- x)) by (apply fl_pos_mono; lra).
    revert H. generalize (fl_pos (- y)) (fl_pos (- x)). intros a b H. lra.
  - pose proof (fl_pos_nonneg (- x) ltac:(lra)) as H1.
    pose proof (fl_pos_nonneg y Ey) as H2.
    revert H1 H2. generalize (fl_pos (- x)) (fl_pos y). intros a b H1 H2.
    lra.
  - apply fl_pos_mono; assumption.
Qed.

Lemma fl_comp x y : x == y -> fl x == fl y.
Proof.
  intros H. apply Qle_antisym; apply fl_mono; lra.
Qed.

Lemma fl_zero : fl 0 == 0.
Proof. reflexivity. Qed.

Lemma fl_nonneg x : 0 <= x -> 0 <= fl x.
Proof. intros H. rewrite <- fl_zero. by apply fl_mono. Qed.

(** More noise from a larger draw. *)
Lemma noisy_mono baseRate u1 u2 :
  u1 <= u2 -> noisy baseRate u1 <= noisy baseRate u2.
Proof.
  intros Hu. unfold noisy.
  apply fl_mono, Qplus_le_r, fl_mono, Qmult_le_compat_r.
  - apply fl_mono. lra.
  - apply fl_nonneg. lra.
Qed.

End Rounding.

(** ** Funding-rate generation *)

Lemma forEach_rate_run entries : forall rates w,
  forEach_rate entries rates w =
  (Done (noisy_rates entries (random w) (draws w) rates),
   advance (length entries) w).
Proof.
  induction entries as [|[symbol baseRate] rest IH]; intros rates w.
  - destruct w; reflexivity.
  - cbn [forEach_rate]. unfold bind, Math_random. rewrite IH. cbn.
    unfold advance; cbn. rewrite Nat.add_succ_r. reflexivity.
Qed.

Lemma generateFundingRates_run w :
  generateFundingRates w =
  (Done (noisy_rates baseRates (random w) (draws w) ∅),
   advance (length baseRates) w).
Proof. apply forEach_rate_run. Qed.

(** *** The generated map *)

Lemma noisy_rates_lookup_other entries rand : forall i (rates : FundingRateData) symbol,
  symbol ∉ entries.*1 ->
  noisy_rates entries rand i rates !! symbol = rates !! symbol.
Proof.
  induction entries as [|[s b] rest IH]; intros i rates symbol Hnot; [done|].
  cbn in *. apply not_elem_of_cons in Hnot as [Hne Hrest].
  rewrite IH by done. by rewrite lookup_insert_ne.
Qed.

Lemma noisy_rates_lookup entries rand : forall i (rates : FundingRateData) j symbol baseRate,
  NoDup entries.*1 ->
  entries !! j = Some (symbol, baseRate) ->
  noisy_rates entries rand i rates !! symbol =
  Some (noisy baseRate (rand (i + j)%nat)).
Proof.
  induction entries as [|[s b] rest IH];
    intros i rates j symbol baseRate Hnd Hj; [done|].
  cbn in Hnd. apply NoDup_cons in Hnd as [Hfresh Hnd].
  destruct j as [|j]; cbn in *.
  - injection Hj as -> ->.
    rewrite noisy_rates_lookup_other by done.
    by rewrite lookup_insert_eq, Nat.add_0_r.
  - rewrite (IH _ _ j symbol baseRate) by done.
    by rewrite Nat.add_succ_r.
Qed.

Lemma noisy_rates_dom entries rand : forall i (rates : FundingRateData),
  dom (noisy_rates entries rand i rates) =
  list_to_set entries.*1 ∪ dom rates.
Proof.
  induction entries as [|[s b] rest IH]; intros i rates; cbn.
  - by rewrite (left_id_L ∅ (∪)).
  - rewrite IH, dom_insert_L. apply set_eq. intros x.
    rewrite !elem_of_union. tauto.
Qed.

Lemma baseRates_NoDup : NoDup baseRates.*1.
Proof. compute_done. Qed.

(** The two extremes of the noise, for each base rate of the table. *)
Lemma baseRates_noise_extremes symbol baseRate :
  (symbol, baseRate) ∈ baseRates ->
  (fl baseRate - noise_bound <= noisy baseRate 0)%Q /\
  (noisy baseRate 1 <= fl baseRate + noise_bound)%Q.
Proof.
  intros Hin. unfold baseRates in Hin.
  repeat (apply elem_of_cons in Hin as [Hin|Hin];
          [injection Hin as -> ->;
           split; apply Qle_bool_iff; vm_compute; reflexivity|]).
  by apply elem_of_nil in Hin.
Qed.

Lemma noisy_within_bound symbol baseRate (u : Q) :
  (symbol, baseRate) ∈ baseRates ->
  (0 <= u)%Q -> (u < 1)%Q ->
  (Qabs (noisy baseRate u - fl baseRate) <= noise_bound)%Q.
Proof.
  intros Hin H0 H1.
  destruct (baseRates_noise_extremes _ _ Hin) as [Hlo Hhi].
  assert (Ha : (noisy baseRate 0 <= noisy baseRate u)%Q)
    by (by apply noisy_mono).
  assert (Hb : (noisy baseRate u <= noisy baseRate 1)%Q)
    by (apply noisy_mono; lra).
  apply Qabs_Qle_condition.
  revert Hlo Hhi Ha Hb.
  generalize (noisy baseRate 0) (noisy baseRate 1) (noisy baseRate u)
             (fl baseRate) noise_bound.
  intros a b c d e Hlo Hhi Ha Hb. split; lra.
Qed.

(** ** One invocation of [fetchCryptoData] *)

Arguments generateFundingRates : simpl never.

Lemma fetchCryptoData_run seen retryCount w :
  let w' := exec (fetchCryptoData seen retryCount) w in
  result (fetchCryptoData seen retryCount) w = Done tt /\
  state w' = cells_after w /\
  tasks w' = tasks w /\
  requests w' = (requests w ++ [apiUrl])%list.
Proof.
  unfold exec, result, fetchCryptoData, cells_after, payload, next_fetch.
  unfold try_finally, try_catch, bind, fetch, json.
  unfold setError, with_state; cbn.
  destruct (network w (length (requests w))) as [response|reason]; cbn.
  - destruct (ok response); cbn.
    + destruct (body response) as [data|]; cbn;
        rewrite generateFundingRates_run; cbn; auto.
    + rewrite generateFundingRates_run; cbn; auto.
  - rewrite generateFundingRates_run; cbn; auto.
Qed.

(** *** The outer handler, taken alone

    No request outcome reaches [on_error] ([fetchCryptoData_run]); run on
    its own it does what its comments announce. *)

Lemma on_error_retry seen retryCount err w :
  (retryCount < 3)%nat ->
  let w' := exec (on_error seen retryCount err) w in
  tasks w' = (tasks w ++ [Timeout (2 ^ Z.of_nat retryCount * 1000)
                                  (retryCount + 1)])%list /\
  state w' = state w.
Proof.
  intros Hlt. unfold exec, on_error, bind, console_write.
  apply Nat.ltb_lt in Hlt. rewrite Hlt. cbn. auto.
Qed.

Example on_error_delays :
  map (fun k => tasks (exec (on_error [] k "err") offline)) [0; 1; 2]%nat
  = [[Timeout 1000 1]; [Timeout 2000 2]; [Timeout 4000 3]].
Proof. reflexivity. Qed.

Lemma on_error_exhausted seen err w :
  let w' := exec (on_error seen 3 err) w in
  error (state w') =
    Some "Connection failed after 4 attempts. Using offline data." /\
  filter (fun t => is_retry t = true)
         (skipn (length (tasks w)) (tasks w')) = [].
Proof.
  unfold exec, on_error, bind, console_write, setError, spawn, with_state.
  cbn. destruct seen; cbn.
  - rewrite drop_app_length. split; reflexivity.
  - rewrite drop_all. split; reflexivity.
Qed.

(** ** Claims about [fetchCryptoData] *)

Lemma fetch_fails_payload r : fetch_fails r -> payload r = None.
Proof. destruct r as [response|reason]; cbn; [intros ->|]; reflexivity. Qed.

Lemma fetchCryptoData_no_task seen retryCount w :
  skipn (length (tasks w)) (tasks (exec (fetchCryptoData seen retryCount) w))
  = [].
Proof.
  destruct (fetchCryptoData_run seen retryCount w) as (_ & _ & Ht & _).
  rewrite Ht. apply drop_all.
Qed.

Lemma run_episode_one fuel seen retryCount w :
  run_episode (S fuel) seen [retryCount] w =
  Some (exec (fetchCryptoData seen retryCount) w).
Proof.
  cbn [run_episode]. rewrite fetchCryptoData_no_task. cbn.
  destruct fuel; reflexivity.
Qed.

(** C1, the code at the failing input: with the network down and attempt
    count 0 the invocation installs the fallback records at once and sets
    no timer, where the retry rule asks for one timer of 1000 ms and no
    fallback yet; the outer handler that sets this timer is not reached. *)
Lemma retries_before_fallback_counterexample :
  fetch_fails (next_fetch offline) /\
  cryptoData (state (exec (fetchCryptoData [] 0) offline)) = mockCryptoData /\
  tasks (exec (fetchCryptoData [] 0) offline) = [] /\
  ~ retries_before_fallback [] 0 offline.
Proof.
  assert (Hc : cryptoData (state (exec (fetchCryptoData [] 0) offline))
               = mockCryptoData).
  { destruct (fetchCryptoData_run [] 0 offline) as (_ & Hs & _).
    cbv zeta in Hs. rewrite Hs. reflexivity. }
  assert (Ht : tasks (exec (fetchCryptoData [] 0) offline) = []).
  { destruct (fetchCryptoData_run [] 0 offline) as (_ & _ & Ht & _).
    exact Ht. }
  split; [exact I|]. split; [exact Hc|]. split; [exact Ht|].
  intros Hclaim. destruct Hclaim as [_ Htasks]; [exact I | lia |].
  rewrite Ht in Htasks. discriminate Htasks.
Qed.

(** What a failed request does, at any attempt count: the invocation
    completes normally and installs the 10-entry fallback dataset, and the
    episode it starts ends after that one invocation. *)
Theorem fallback_on_failed_fetch seen retryCount w :
  fetch_fails (next_fetch w) ->
  let w' := exec (fetchCryptoData seen retryCount) w in
  result (fetchCryptoData seen retryCount) w = Done tt /\
  cryptoData (state w') = mockCryptoData /\
  length (cryptoData (state w')) = 10%nat /\
  run_episode 1 seen [retryCount] w = Some w' /\
  forall fuel w'',
    run_episode fuel seen [retryCount] w = Some w'' ->
    (retries_scheduled w w'' <= 3)%nat.
Proof.
  intros Hfail w'.
  destruct (fetchCryptoData_run seen retryCount w) as (Hr & Hs & Ht & _).
  fold w' in Hs, Ht.
  assert (Hc : cryptoData (state w') = mockCryptoData).
  { rewrite Hs. unfold cells_after. cbn.
    by rewrite (fetch_fails_payload _ Hfail). }
  split; [exact Hr|]. split; [exact Hc|]. split; [by rewrite Hc|].
  split; [apply run_episode_one|].
  intros fuel w'' Hrun. destruct fuel as [|fuel]; [discriminate Hrun|].
  rewrite run_episode_one in Hrun. injection Hrun as <-.
  unfold retries_scheduled. rewrite fetchCryptoData_no_task. cbn. lia.
Qed.

Lemma fallback_on_failed_fetch_witness :
  fetch_fails (next_fetch offline) /\
  cryptoData (state (exec (fetchCryptoData [] 2) offline)) = mockCryptoData.
Proof.
  split; [exact I|].
  apply (fallback_on_failed_fetch [] 2%nat offline). exact I.
Defined.

(** C6, the code at the failing input: attempt count 3 and the network
    down.  The records become the fallback dataset and no task is left,
    but the error cell is [null], not the "... 4 attempts ..." text. *)
Lemma exhausted_budget_error_unset :
  let w' := exec (fetchCryptoData [] 3) offline in
  error (state w') = None /\
  error (state w') <>
    Some "Connection failed after 4 attempts. Using offline data." /\
  cryptoData (state w') = mockCryptoData /\
  tasks w' = [].
Proof.
  destruct (fetchCryptoData_run [] 3 offline) as (_ & Hs & Ht & _).
  cbv zeta in *. rewrite Hs, Ht.
  split; [reflexivity|]. split; [discriminate|]. split; reflexivity.
Qed.

(** The text the handler would set at attempt count 3. *)
Example exhausted_budget_message :
  ("Connection failed after " ++ string_of_nat (3 + 1)
   ++ " attempts. Using offline data.")
  = "Connection failed after 4 attempts. Using offline data.".
Proof. reflexivity. Qed.

(** The error cell is [null] after every invocation, whatever the request
    did and whatever the attempt count. *)
Lemma fetchCryptoData_error_cleared seen retryCount w :
  error (state (exec (fetchCryptoData seen retryCount) w)) = None.
Proof.
  destruct (fetchCryptoData_run seen retryCount w) as (_ & Hs & _).
  cbv zeta in Hs. by rewrite Hs.
Qed.

(** C7, as stated, fails on the success path: a 200 response with nine
    of the ten coins is installed as it is. *)
Lemma snapshot_complete_counterexample :
  cryptoData (state (exec (fetchCryptoData [] 0) partial_response))
    = take 9 mockCryptoData /\
  length (cryptoData (state (exec (fetchCryptoData [] 0) partial_response)))
    = 9%nat /\
  ~ snapshot_complete [] 0 partial_response.
Proof.
  destruct (fetchCryptoData_run [] 0 partial_response) as (_ & Hs & _).
  cbv zeta in Hs. unfold snapshot_complete. rewrite Hs. cbn.
  split; [reflexivity|]. split; [reflexivity | discriminate].
Qed.

(** C7, amended: every invocation replaces the records.  On the fallback
    path (rejected request, non-success status or unreadable body) they are
    the fallback dataset: exactly 10 entries, one per target coin, in the
    configured order.  On the success path they are the response body as
    received, unchecked. *)
Theorem snapshot_after_cycle seen retryCount w :
  let records :=
    cryptoData (state (exec (fetchCryptoData seen retryCount) w)) in
  match next_fetch w with
  | Resolved response =>
      if ok response then
        match body response with
        | Some data => records = data
        | None => is_fallback records
        end
      else is_fallback records
  | Rejected _ => is_fallback records
  end.
Proof.
  destruct (fetchCryptoData_run seen retryCount w) as (_ & Hs & _).
  cbv zeta in *. rewrite Hs. unfold cells_after, payload. cbn.
  destruct (next_fetch w) as [response|reason].
  - destruct (ok response); [destruct (body response)|];
      first [reflexivity | by repeat split].
  - by repeat split.
Qed.

(** C8, as stated, fails: with the random source at 0 the rate
    generated for ETH lies more than 0.001 below its base rate, by the
    rounding of [-0.5 * 0.002] and of the sum; this holds for the base
    rate as the double the code stores and as the decimal of the source. *)
Lemma noise_within_permille_counterexample :
  (forall i, 0 <= random zero_noise i /\ random zero_noise i < 1)%Q /\
  (exists rate,
     fundingRates (state (exec (fetchCryptoData [] 0) zero_noise)) !! "ETH"
       = Some rate /\
     (0.001 < Qabs (rate - fl (-0.0087)))%Q /\
     (0.001 < Qabs (rate - (-0.0087)))%Q) /\
  ~ noise_within_permille [] 0 zero_noise.
Proof.
  assert (Hu : (forall i, 0 <= random zero_noise i /\
                          random zero_noise i < 1)%Q).
  { intros i. split; [unfold Qle | unfold Qlt]; simpl; lia. }
  assert (Hr : fundingRates (state (exec (fetchCryptoData [] 0) zero_noise))
               !! "ETH" = Some (noisy (-0.0087) 0)).
  { destruct (fetchCryptoData_run [] 0 zero_noise) as (_ & Hs & _).
    cbv zeta in Hs. rewrite Hs. unfold cells_after. cbn [fundingRates].
    exact (noisy_rates_lookup baseRates (random zero_noise) 0 ∅ 1
             "ETH" (-0.0087)%Q baseRates_NoDup eq_refl). }
  assert (Hfar : (0.001 < Qabs (noisy (-0.0087) 0 - fl (-0.0087)))%Q)
    by (apply Qlt_alt; vm_compute; reflexivity).
  split; [exact Hu|]. split.
  - eexists. split; [exact Hr|]. split; [exact Hfar|].
    apply Qlt_alt. vm_compute. reflexivity.
  - intros Hclaim.
    destruct (Hclaim Hu "ETH" (-0.0087)%Q) as (rate & Hrate & Hle).
    { apply list_elem_of_lookup. by exists 1%nat. }
    assert (Heq : rate = noisy (-0.0087) 0) by congruence.
    rewrite Heq in Hle. apply Qle_not_lt in Hle. exact (Hle Hfar).
Qed.

(** C8, amended: every invocation, whatever the request did, regenerates
    the funding-rate map over exactly the 10 tracked upper-case symbols,
    and each rate is within 0.001 of the symbol's base rate up to the
    rounding of double arithmetic: never further than 0.001 + 10^-18 from
    the base rate as stored, for a random source with values in [0, 1). *)
Theorem funding_rates_regenerated seen retryCount w :
  (forall i, 0 <= random w i /\ random w i < 1)%Q ->
  let rates :=
    fundingRates (state (exec (fetchCryptoData seen retryCount) w)) in
  dom rates =
    list_to_set ["BTC"; "ETH"; "BNB"; "SOL"; "ADA"; "SUI"; "SEI"; "HYPE";
                 "DOGE"; "BONK"] /\
  map (fun c => toUpperCase (CryptoData.symbol c)) mockCryptoData =
    baseRates.*1 /\
  forall symbol baseRate,
    (symbol, baseRate) ∈ baseRates ->
    exists rate,
      rates !! symbol = Some rate /\
      (Qabs (rate - fl baseRate) <= 0.001000000000000001)%Q.
Proof.
  intros Hrand.
  destruct (fetchCryptoData_run seen retryCount w) as (_ & Hs & _).
  cbv zeta in *. rewrite Hs. unfold cells_after. cbn [fundingRates].
  split; [|split].
  - rewrite noisy_rates_dom, dom_empty_L, (right_id_L ∅ (∪)). reflexivity.
  - reflexivity.
  - intros symbol baseRate Hin.
    pose proof Hin as Hmem.
    apply list_elem_of_lookup in Hin as [j Hj].
    eexists. split.
    + exact (noisy_rates_lookup _ _ _ _ _ _ _ baseRates_NoDup Hj).
    + destruct (Hrand (draws w + j)%nat) as [H0 H1].
      exact (noisy_within_bound _ _ _ Hmem H0 H1).
Qed.

Lemma funding_rates_regenerated_witness :
  (forall i, 0 <= random zero_noise i /\ random zero_noise i < 1)%Q /\
  exists rate,
    fundingRates (state (exec (fetchCryptoData [] 0) zero_noise)) !! "ETH"
      = Some rate /\
    (Qabs (rate - fl (-0.0087)) <= 0.001000000000000001)%Q.
Proof.
  assert (H : (forall i, 0 <= random zero_noise i /\
                         random zero_noise i < 1)%Q).
  { intros i. split; [unfold Qle | unfold Qlt]; simpl; lia. }
  split; [exact H|].
  apply (funding_rates_regenerated [] 0%nat zero_noise H).
  apply list_elem_of_lookup. exists 1%nat. reflexivity.
Defined.

(** ** Claims about [getTradeSignal] *)

(** [getTradeSignal] reads the two cells and writes nothing. *)
Lemma getTradeSignal_run symbol w :
  exists s : option TradeSignal, getTradeSignal symbol w = (Done s, w).
Proof.
  unfold getTradeSignal, bind, useFundingRates, useCryptoData, ret.
  repeat match goal with
         | |- context [if ?b then _ else _] => destruct b
         | |- context [match ?o with Some _ => _ | None => _ end] =>
             destruct o
         end; eauto.
Qed.

(** The no-funding path: entry absent or zero. *)
Lemma getTradeSignal_falsy symbol w :
  falsy (fundingRates (state w) !! toUpperCase symbol) = true ->
  result (getTradeSignal symbol) w =
  Done (Some
    match find (same_symbol symbol) (cryptoData (state w)) with
    | Some c =>
        if Qle_bool 2 (change24h c) then BUY
        else if Qle_bool (change24h c) (-2) then SELL
        else default_signal symbol
    | None => default_signal symbol
    end).
Proof.
  intros Hf. unfold result, getTradeSignal, bind, useFundingRates,
    useCryptoData, ret, default_signal.
  rewrite Hf.
  destruct (find _ _) as [c|]; [|reflexivity].
  destruct (Qle_bool 2 _); [reflexivity|].
  destruct (Qle_bool _ (-2)); reflexivity.
Qed.

(** The funding path: entry present and non-zero. *)
Lemma getTradeSignal_truthy symbol w r :
  fundingRates (state w) !! toUpperCase symbol = Some r ->
  Qeq_bool r 0 = false ->
  result (getTradeSignal symbol) w =
  Done (if Qle_bool 0.005 r then Some SELL
        else if Qle_bool r (-0.005) then Some BUY
        else None).
Proof.
  intros Hr Hz. unfold result, getTradeSignal, bind, useFundingRates, ret.
  rewrite Hr. cbn [falsy]. rewrite Hz.
  destruct (Qle_bool 0.005 r); [reflexivity|].
  destruct (Qle_bool r (-0.005)); reflexivity.
Qed.

Lemma Qeq_bool_nonzero (r : Q) : ~ (r == 0)%Q -> Qeq_bool r 0 = false.
Proof.
  intros Hne. destruct (Qeq_bool r 0) eqn:E; [|reflexivity].
  apply Qeq_bool_iff in E. contradiction.
Qed.

Lemma Qle_bool_false (x y : Q) : (y < x)%Q -> Qle_bool x y = false.
Proof.
  intros Hlt. destruct (Qle_bool x y) eqn:E; [|reflexivity].
  apply Qle_bool_iff in E. lra.
Qed.

Lemma Qle_bool_false_lt (x y : Q) : Qle_bool x y = false -> (y < x)%Q.
Proof.
  intros E. apply Qnot_le_lt. intros Hle.
  apply Qle_bool_iff in Hle. congruence.
Qed.

(** C4: a present rate at or above 0.005 gives SELL, at or below -0.005
    gives BUY. *)
Theorem funding_rate_thresholds symbol w r :
  fundingRates (state w) !! toUpperCase symbol = Some r ->
  ((0.005 <= r)%Q -> result (getTradeSignal symbol) w = Done (Some SELL)) /\
  ((r <= -0.005)%Q -> result (getTradeSignal symbol) w = Done (Some BUY)).
Proof.
  intros Hr. split; intros Hb.
  - rewrite (getTradeSignal_truthy _ _ _ Hr)
      by (apply Qeq_bool_nonzero; lra).
    apply Qle_bool_iff in Hb. by rewrite Hb.
  - rewrite (getTradeSignal_truthy _ _ _ Hr)
      by (apply Qeq_bool_nonzero; lra).
    rewrite Qle_bool_false by lra.
    apply Qle_bool_iff in Hb. by rewrite Hb.
Qed.

(** The two scenarios of C4: BTC at 0.0123 and ETH at -0.0087. *)
Lemma funding_rate_thresholds_witness :
  result (getTradeSignal "BTC") btc_eth_render = Done (Some SELL) /\
  signal SELL = "SELL" /\
  result (getTradeSignal "ETH") btc_eth_render = Done (Some BUY) /\
  signal BUY = "BUY".
Proof.
  split; [|split; [reflexivity|split; [|reflexivity]]].
  - apply (funding_rate_thresholds "BTC" btc_eth_render 0.0123%Q);
      [reflexivity|].
    unfold Qle; simpl; lia.
  - apply (funding_rate_thresholds "ETH" btc_eth_render (-0.0087)%Q);
      [reflexivity|].
    unfold Qle; simpl; lia.
Defined.

(** C5: with no funding-rate entry and the asset's record in the snapshot,
    a 24h change of at least 2 gives BUY and of at most -2 gives SELL. *)
Theorem momentum_without_funding symbol w c :
  fundingRates (state w) !! toUpperCase symbol = None ->
  find (same_symbol symbol) (cryptoData (state w)) = Some c ->
  ((2 <= change24h c)%Q ->
   result (getTradeSignal symbol) w = Done (Some BUY)) /\
  ((change24h c <= -2)%Q ->
   result (getTradeSignal symbol) w = Done (Some SELL)).
Proof.
  intros Hr Hc.
  rewrite getTradeSignal_falsy by (by rewrite Hr).
  rewrite Hc. split; intros Hb.
  - apply Qle_bool_iff in Hb. by rewrite Hb.
  - rewrite Qle_bool_false by lra.
    apply Qle_bool_iff in Hb. by rewrite Hb.
Qed.

Lemma momentum_without_funding_witness :
  result (getTradeSignal "sol") (rendering ∅ mockCryptoData)
    = Done (Some BUY) /\
  result (getTradeSignal "sei") (rendering ∅ mockCryptoData)
    = Done (Some SELL).
Proof.
  split.
  - eapply (momentum_without_funding "sol" (rendering ∅ mockCryptoData));
      [reflexivity | reflexivity |].
    unfold Qle; simpl; lia.
  - eapply (momentum_without_funding "sei" (rendering ∅ mockCryptoData));
      [reflexivity | reflexivity |].
    unfold Qle; simpl; lia.
Defined.

(** A present, non-zero rate strictly inside the band ends the function
    with [null]; the records are not consulted. *)
Lemma in_band_returns_null symbol w r :
  fundingRates (state w) !! toUpperCase symbol = Some r ->
  ~ (r == 0)%Q ->
  (-0.005 < r)%Q -> (r < 0.005)%Q ->
  result (getTradeSignal symbol) w = Done None.
Proof.
  intros Hr Hz Hlo Hhi.
  rewrite (getTradeSignal_truthy _ _ _ Hr) by (by apply Qeq_bool_nonzero).
  by rewrite !Qle_bool_false by lra.
Qed.

(** C2, the code at the failing input: SUI has the in-band rate -0.0023
    and a 24h change of 6.78; the momentum rule would give BUY, the
    function returns [null]. *)
Lemma in_band_rate_skips_momentum :
  fundingRates (state sui_in_band_render) !! toUpperCase "sui"
    = Some (-0.0023)%Q /\
  (exists c,
     find (same_symbol "sui") (cryptoData (state sui_in_band_render))
       = Some c /\
     change24h c = 6.78%Q /\ Qle_bool 2 (change24h c) = true) /\
  result (getTradeSignal "sui") sui_in_band_render = Done None.
Proof.
  split; [reflexivity|]. split.
  - eexists. split; [reflexivity|]. split; reflexivity.
  - apply (in_band_returns_null "sui" sui_in_band_render (-0.0023)%Q);
      [reflexivity| | |].
    + intros H. discriminate H.
    + reflexivity.
    + reflexivity.
Qed.

(** C3, as stated, fails: XRP, with no funding-rate entry and a 24h
    change of 0.5, gets SELL. *)
Lemma default_only_for_named_counterexample :
  result (getTradeSignal "xrp") (rendering ∅ [xrp]) = Done (Some SELL) /\
  ~ default_only_for_named "xrp" (rendering ∅ [xrp]).
Proof.
  split; [reflexivity|].
  intros Hclaim.
  assert (H : result (getTradeSignal "xrp") (rendering ∅ [xrp]) = Done None).
  { apply Hclaim; [discriminate | discriminate | reflexivity |].
    intros c Hc. injection Hc as <-. split; reflexivity. }
  discriminate H.
Qed.

(** C3, amended: with no funding-rate entry and no momentum (record
    absent, or 24h change strictly between -2 and 2) the function returns
    the fixed default, BUY for BNB and SELL for every other symbol; it
    never returns no signal there. *)
Theorem default_signal_without_funding symbol w :
  fundingRates (state w) !! toUpperCase symbol = None ->
  (forall c, find (same_symbol symbol) (cryptoData (state w)) = Some c ->
             (-2 < change24h c)%Q /\ (change24h c < 2)%Q) ->
  result (getTradeSignal symbol) w =
    Done (Some (if toUpperCase symbol =? "BNB" then BUY else SELL)) /\
  result (getTradeSignal symbol) w <> Done None.
Proof.
  intros Hr Hquiet.
  assert (H : result (getTradeSignal symbol) w =
              Done (Some (default_signal symbol))).
  { rewrite getTradeSignal_falsy by (by rewrite Hr).
    destruct (find _ _) as [c|]; [|reflexivity].
    destruct (Hquiet c eq_refl) as [Hlo Hhi].
    by rewrite !Qle_bool_false by lra. }
  split; [exact H | rewrite H; discriminate].
Qed.

Lemma default_signal_without_funding_witness :
  result (getTradeSignal "bnb") (rendering ∅ mockCryptoData)
    = Done (Some BUY) /\
  result (getTradeSignal "xrp") (rendering ∅ [xrp]) = Done (Some SELL).
Proof.
  split.
  - apply (default_signal_without_funding "bnb" (rendering ∅ mockCryptoData));
      [reflexivity|].
    intros c Hc. injection Hc as <-. split; reflexivity.
  - apply (default_signal_without_funding "xrp" (rendering ∅ [xrp]));
      [reflexivity|].
    intros c Hc. injection Hc as <-. split; reflexivity.
Defined.

(** C9: [getTradeSignal] is a function of the two snapshots.  It leaves
    the world as it found it, so a second call sees the same snapshots and
    returns the same result; and two worlds with the same funding-rate map
    and the same records give the same result. *)
Theorem getTradeSignal_pure symbol w1 w2 :
  fundingRates (state w1) = fundingRates (state w2) ->
  cryptoData (state w1) = cryptoData (state w2) ->
  exec (getTradeSignal symbol) w1 = w1 /\
  (exists s, result (getTradeSignal symbol) w1 = Done s /\
     (first <- getTradeSignal symbol ;;
      second <- getTradeSignal symbol ;;
      ret (first, second)) w1 = (Done (s, s), w1)) /\
  result (getTradeSignal symbol) w1 = result (getTradeSignal symbol) w2.
Proof.
  intros Hrates Hrecords.
  destruct (getTradeSignal_run symbol w1) as [s Hs].
  split; [|split].
  - unfold exec. by rewrite Hs.
  - exists s. split; [unfold result; by rewrite Hs|].
    unfold bind. by rewrite Hs, Hs.
  - unfold result, getTradeSignal, bind, useFundingRates, useCryptoData.
    cbn beta iota. rewrite Hrates.
    destruct (falsy _); [rewrite Hrecords|].
    all: repeat match goal with
           | |- context [if ?b then _ else _] => destruct b
           | |- context [match ?o with Some _ => _ | None => _ end] =>
               destruct o
           end; reflexivity.
Qed.

Lemma getTradeSignal_pure_witness :
  result (getTradeSignal "sui") sui_in_band_render
  = result (getTradeSignal "sui") sui_in_band_busy.
Proof.
  apply (getTradeSignal_pure "sui" sui_in_band_render sui_in_band_busy);
    reflexivity.
Defined.

(** C10: an entry that is present but zero is treated as absent.  The
    result is the one obtained with the entry deleted, it follows the
    momentum rule and then the fixed default, it is never [null], and
    [getFundingSignal] returns [null] for it. *)
Theorem zero_rate_as_absent symbol w r :
  fundingRates (state w) !! toUpperCase symbol = Some r ->
  (r == 0)%Q ->
  let without :=
    exec (setFundingRates
            (delete (toUpperCase symbol) (fundingRates (state w)))) w in
  result (getTradeSignal symbol) w = result (getTradeSignal symbol) without /\
  result (getTradeSignal symbol) w =
    Done (Some
      match find (same_symbol symbol) (cryptoData (state w)) with
      | Some c =>
          if Qle_bool 2 (change24h c) then BUY
          else if Qle_bool (change24h c) (-2) then SELL
          else if toUpperCase symbol =? "BNB" then BUY else SELL
      | None => if toUpperCase symbol =? "BNB" then BUY else SELL
      end) /\
  result (getFundingSignal symbol) w = Done None.
Proof.
  intros Hr Hz without.
  assert (Hf : falsy (fundingRates (state w) !! toUpperCase symbol) = true).
  { rewrite Hr. cbn. by apply Qeq_bool_iff. }
  assert (Hf' : falsy (fundingRates (state without) !! toUpperCase symbol)
                = true).
  { unfold without, exec, setFundingRates, with_state. cbn.
    by rewrite lookup_delete_eq. }
  split; [|split].
  - rewrite (getTradeSignal_falsy _ _ Hf), (getTradeSignal_falsy _ _ Hf').
    reflexivity.
  - rewrite (getTradeSignal_falsy _ _ Hf). reflexivity.
  - unfold result, getFundingSignal, bind, useFundingRates, ret.
    by rewrite Hf.
Qed.

Lemma zero_rate_as_absent_witness :
  result (getTradeSignal "sol") sol_zero_render = Done (Some BUY) /\
  result (getFundingSignal "sol") sol_zero_render = Done None.
Proof.
  pose proof (zero_rate_as_absent "sol" sol_zero_render 0%Q eq_refl
                (Qeq_refl 0)) as H.
  cbv zeta in H. destruct H as (_ & H2 & H3).
  split; [exact H2 | exact H3].
Defined.

(** * Further properties *)

(** ** [fetchCryptoData]: the whole world after an invocation *)

Lemma fetchCryptoData_world seen retryCount w :
  fetchCryptoData seen retryCount w = (Done tt, world_after w).
Proof.
  unfold fetchCryptoData, world_after, cells_after, console_after,
    failure_text, payload, next_fetch.
  unfold try_finally, try_catch, bind, fetch, json.
  unfold setError, with_state; cbn.
  destruct (network w (length (requests w))) as [response|reason]; cbn.
  - destruct (ok response); cbn.
    + destruct (body response) as [data|]; cbn;
        rewrite generateFundingRates_run; cbn;
        rewrite ?app_nil_r; reflexivity.
    + rewrite generateFundingRates_run; cbn; reflexivity.
  - rewrite generateFundingRates_run; cbn; reflexivity.
Qed.

(** X1: whatever the request does (rejection, non-success status,
    unreadable body, success) the invocation ends normally, with loading
    off, the error cell [null], the timestamp set to the current time and
    no task left to the event loop. *)
Theorem fetchCryptoData_never_fails seen retryCount w :
  let w' := exec (fetchCryptoData seen retryCount) w in
  result (fetchCryptoData seen retryCount) w = Done tt /\
  loading (state w') = false /\
  error (state w') = None /\
  lastUpdated (state w') = clock w /\
  tasks w' = tasks w.
Proof.
  unfold exec, result. rewrite fetchCryptoData_world. cbn. auto.
Qed.

(** X2: the attempt counter and the records seen by the closure have no
    effect: two invocations from the same world end in the same world. *)
Theorem retryCount_has_no_effect seen seen' retryCount retryCount' w :
  fetchCryptoData seen retryCount w = fetchCryptoData seen' retryCount' w.
Proof. by rewrite !fetchCryptoData_world. Qed.

(** X3: the cells are replaced wholesale.  Two worlds with the same
    environment (next request outcome, random stream and position, clock)
    have the same cells after an invocation, whatever their cells were. *)
Theorem cells_keep_no_history seen retryCount w1 w2 :
  next_fetch w1 = next_fetch w2 ->
  random w1 = random w2 ->
  draws w1 = draws w2 ->
  clock w1 = clock w2 ->
  state (exec (fetchCryptoData seen retryCount) w1) =
  state (exec (fetchCryptoData seen retryCount) w2).
Proof.
  intros Hf Hr Hd Hc. unfold exec. rewrite !fetchCryptoData_world. cbn.
  unfold cells_after. by rewrite Hf, Hr, Hd, Hc.
Qed.

Lemma cells_keep_no_history_witness :
  state offline <> state offline_later /\
  state (exec (fetchCryptoData [] 0) offline) =
  state (exec (fetchCryptoData [] 0) offline_later).
Proof.
  split; [discriminate|].
  apply (cells_keep_no_history [] 0%nat offline offline_later); reflexivity.
Defined.

(** X4: a failed request is reported once, by a warning that carries the
    rejection reason or the text [HTTP <status>: <statusText>]; a
    successful one writes nothing; [console.error] is never reached. *)
Theorem failure_is_warned_once seen retryCount w :
  let w' := exec (fetchCryptoData seen retryCount) w in
  (forall e, In (Error e) (console w') -> In (Error e) (console w)) /\
  match next_fetch w with
  | Rejected reason =>
      console w' =
      (console w ++
       [Warn ("Direct API fetch failed, using fallback data: " ++ reason)])%list
  | Resolved response =>
      if ok response then
        match body response with
        | Some _ => console w' = console w
        | None => exists e, console w' = (console w ++ [Warn e])%list
        end
      else
        console w' =
        (console w ++
         [Warn ("Direct API fetch failed, using fallback data: "
                ++ "HTTP " ++ string_of_nat (status response) ++ ": "
                ++ statusText response)])%list
  end.
Proof.
  unfold exec. rewrite fetchCryptoData_world. cbn [snd console world_after].
  unfold console_after, failure_text. split.
  - intros e Hin. apply in_app_or in Hin as [Hin|Hin]; [exact Hin|].
    destruct (next_fetch w) as [response|reason];
      [destruct (ok response); [destruct (body response)|]|];
      cbn in Hin; intuition discriminate.
  - destruct (next_fetch w) as [response|reason]; [|reflexivity].
    destruct (ok response); [|reflexivity].
    destruct (body response); [by rewrite app_nil_r | eauto].
Qed.

Example not_found_warning :
  console (exec (fetchCryptoData [] 0) missing_endpoint) =
  [Warn "Direct API fetch failed, using fallback data: HTTP 404: Not Found"].
Proof. unfold exec. rewrite fetchCryptoData_world. reflexivity. Qed.

(** ** The outer handler *)

(** X5: below attempt count 3 the handler backs off: it logs the error
    and the retry, sets exactly one timer, of 1000, 2000 or 4000 ms
    ([2^retryCount] seconds), for the next attempt, and leaves every cell
    as it was. *)
Theorem on_error_backs_off seen retryCount err w :
  (retryCount < 3)%nat ->
  let w' := exec (on_error seen retryCount err) w in
  let delay := nth retryCount [1000; 2000; 4000]%Z 0%Z in
  tasks w' = (tasks w ++ [Timeout delay (S retryCount)])%list /\
  state w' = state w /\
  console w' =
    (console w ++
     [Error ("Crypto data fetch error: " ++ err);
      Log ("Retrying in " ++ string_of_nat (Z.to_nat delay)
           ++ "ms... (attempt " ++ string_of_nat (S retryCount)
           ++ "/3)")])%list.
Proof.
  intros Hlt.
  assert (Hk : retryCount = 0%nat \/ retryCount = 1%nat \/
               retryCount = 2%nat) by lia.
  destruct Hk as [->|[->| ->]];
    unfold exec, on_error, bind, console_write, setTimeout, spawn; cbn;
    rewrite <- app_assoc; auto.
Qed.

Lemma on_error_backs_off_witness :
  tasks (exec (on_error [] 2 "boom") offline) = [Timeout 4000 3] /\
  state (exec (on_error [] 2 "boom") offline) = state offline.
Proof.
  pose proof (on_error_backs_off [] 2%nat "boom" offline) as H.
  cbv zeta in H. destruct H as (Ht & Hs & _); [lia|].
  split; [exact Ht | exact Hs].
Defined.






(** ** The polling effect *)

Lemma run_episode_queue seen pending : forall fuel w,
  (length pending <= fuel)%nat ->
  run_episode fuel seen pending w = Some (run_all seen pending w).
Proof.
  induction pending as [|k rest IH]; intros fuel w Hlen.
  - destruct fuel; reflexivity.
  - destruct fuel as [|fuel]; [cbn in Hlen; lia|].
    cbn [run_episode]. rewrite fetchCryptoData_no_task. cbn [map].
    rewrite app_nil_r. apply IH. cbn in Hlen. lia.
Qed.

Lemma run_episode_starved seen pending : forall fuel w,
  (fuel < length pending)%nat ->
  run_episode fuel seen pending w = None.
Proof.
  induction pending as [|k rest IH]; intros fuel w Hlen.
  - cbn in Hlen. lia.
  - destruct fuel as [|fuel]; [reflexivity|].
    cbn [run_episode]. rewrite fetchCryptoData_no_task. cbn [map].
    rewrite app_nil_r. apply IH. cbn in Hlen. lia.
Qed.

Lemma run_all_cons seen k rest w :
  run_all seen (k :: rest) w = run_all seen rest (world_after w).
Proof.
  unfold run_all. cbn [fold_left]. unfold exec.
  by rewrite fetchCryptoData_world.
Qed.

Lemma run_all_zeros seen n : forall w,
  let w' := run_all seen (repeat 0%nat n) w in
  requests w' = (requests w ++ repeat apiUrl n)%list /\
  draws w' = (n * length baseRates + draws w)%nat /\
  tasks w' = tasks w /\
  random w' = random w /\
  (n <> 0%nat -> loading (state w') = false /\ error (state w') = None).
Proof.
  induction n as [|n IH]; intros w.
  - cbn. rewrite app_nil_r. repeat split; congruence.
  - cbn [repeat]. rewrite run_all_cons.
    destruct (IH (world_after w)) as (Hr & Hd & Ht & Hrand & Hcells).
    cbv zeta in *.
    rewrite Hr, Hd, Ht, Hrand. cbn [requests draws tasks random world_after].
    split; [by rewrite <- app_assoc|].
    split; [lia|]. split; [reflexivity|]. split; [reflexivity|].
    intros _. destruct n as [|n]; [cbn; auto|]. by apply Hcells.
Qed.

(** X8: the call at mount and [ticks] firings of the interval need
    exactly [ticks + 1] invocations, never more: each sends one request to
    the market endpoint, draws ten random numbers and leaves no task, and
    the run ends with loading off and no error text. *)
Theorem polling_one_request_per_tick ticks w :
  (forall fuel, (fuel <= ticks)%nat -> polling fuel ticks w = None) /\
  exists w',
    (forall fuel, (ticks < fuel)%nat -> polling fuel ticks w = Some w') /\
    requests w' = (requests w ++ repeat apiUrl (S ticks))%list /\
    draws w' = (10 * S ticks + draws w)%nat /\
    tasks w' = tasks w /\
    loading (state w') = false /\
    error (state w') = None.
Proof.
  unfold polling, polling_queue. split.
  - intros fuel Hle. apply run_episode_starved.
    rewrite repeat_length. lia.
  - exists (run_all first_render_seen (repeat 0%nat (S ticks)) w).
    destruct (run_all_zeros first_render_seen (S ticks) w)
      as (Hr & Hd & Ht & _ & Hcells).
    cbv zeta in *. split.
    + intros fuel Hlt. apply run_episode_queue. rewrite repeat_length. lia.
    + rewrite Hr, Hd, Ht. change (length baseRates) with 10%nat.
      destruct Hcells as [Hl He]; [discriminate|].
      repeat split; [lia | exact Hl | exact He].
Qed.

(** ** Signals after a refresh *)

Lemma refreshed_rate seen retryCount w j symbol baseRate :
  baseRates !! j = Some (symbol, baseRate) ->
  fundingRates (state (exec (fetchCryptoData seen retryCount) w)) !! symbol =
  Some (noisy baseRate (random w (draws w + j)%nat)).
Proof.
  intros Hj. unfold exec. rewrite fetchCryptoData_world.
  cbn [snd state world_after]. unfold cells_after. cbn [fundingRates].
  exact (noisy_rates_lookup _ _ _ _ _ _ _ baseRates_NoDup Hj).
Qed.

(** The rate after a refresh lies between the rates of the draws 0 and 1. *)
Lemma refreshed_rate_between seen retryCount w j symbol baseRate :
  baseRates !! j = Some (symbol, baseRate) ->
  unit_interval (random w) ->
  exists rate,
    fundingRates (state (exec (fetchCryptoData seen retryCount) w)) !! symbol
      = Some rate /\
    (noisy baseRate 0 <= rate)%Q /\ (rate <= noisy baseRate 1)%Q.
Proof.
  intros Hj Hrand. eexists. split; [exact (refreshed_rate _ _ _ _ _ _ Hj)|].
  destruct (Hrand (draws w + j)%nat) as [H0 H1].
  split; apply noisy_mono; lra.
Qed.

Lemma refreshed_sell seen retryCount w j symbol baseRate :
  baseRates !! j = Some (toUpperCase symbol, baseRate) ->
  unit_interval (random w) ->
  Qle_bool 0.005 (noisy baseRate 0) = true ->
  result (getTradeSignal symbol)
         (exec (fetchCryptoData seen retryCount) w) = Done (Some SELL).
Proof.
  intros Hj Hrand Hbase. apply Qle_bool_iff in Hbase.
  destruct (refreshed_rate_between seen retryCount w j _ _ Hj Hrand)
    as (rate & Hr & Hlo & _).
  revert Hbase Hlo. generalize (noisy baseRate 0). intros lo Hbase Hlo.
  rewrite (getTradeSignal_truthy _ _ _ Hr)
    by (apply Qeq_bool_nonzero; lra).
  assert (Hle : Qle_bool 0.005 rate = true) by (apply Qle_bool_iff; lra).
  by rewrite Hle.
Qed.

Lemma refreshed_buy seen retryCount w j symbol baseRate :
  baseRates !! j = Some (toUpperCase symbol, baseRate) ->
  unit_interval (random w) ->
  Qle_bool (noisy baseRate 1) (-0.005) = true ->
  result (getTradeSignal symbol)
         (exec (fetchCryptoData seen retryCount) w) = Done (Some BUY).
Proof.
  intros Hj Hrand Hbase. apply Qle_bool_iff in Hbase.
  destruct (refreshed_rate_between seen retryCount w j _ _ Hj Hrand)
    as (rate & Hr & _ & Hhi).
  revert Hbase Hhi. generalize (noisy baseRate 1). intros hi Hbase Hhi.
  rewrite (getTradeSignal_truthy _ _ _ Hr)
    by (apply Qeq_bool_nonzero; lra).
  rewrite Qle_bool_false by lra.
  assert (Hle : Qle_bool rate (-0.005) = true) by (apply Qle_bool_iff; lra).
  by rewrite Hle.
Qed.

Lemma refreshed_quiet seen retryCount w j symbol baseRate :
  baseRates !! j = Some (toUpperCase symbol, baseRate) ->
  unit_interval (random w) ->
  quiet_extremes (noisy baseRate 0) (noisy baseRate 1) = true ->
  result (getTradeSignal symbol)
         (exec (fetchCryptoData seen retryCount) w) = Done None.
Proof.
  intros Hj Hrand Hbase.
  destruct (refreshed_rate_between seen retryCount w j _ _ Hj Hrand)
    as (rate & Hr & Hlo & Hhi).
  revert Hbase Hlo Hhi. unfold quiet_extremes.
  generalize (noisy baseRate 0) (noisy baseRate 1). intros lo hi Hbase Hlo Hhi.
  apply orb_true_iff in Hbase as [Hb|Hb];
    apply andb_true_iff in Hb as [Hb1 Hb2];
    apply negb_true_iff, Qle_bool_false_lt in Hb1;
    apply negb_true_iff, Qle_bool_false_lt in Hb2;
    apply (in_band_returns_null _ _ _ Hr); lra.
Qed.

Ltac pick_symbol H :=
  repeat (apply elem_of_cons in H as [H|H]);
  [.. | by apply elem_of_nil in H].

(** X9: after any refresh, with a random source in [0, 1), the signal of
    seven tracked symbols is fixed by their base rate alone, whatever the
    noise and the market data: SELL for BTC, ADA and SEI, BUY for ETH,
    SOL, HYPE and BONK, in any letter case. *)
Theorem settled_signals_after_refresh seen retryCount w symbol :
  unit_interval (random w) ->
  let w' := exec (fetchCryptoData seen retryCount) w in
  (toUpperCase symbol ∈ ["BTC"; "ADA"; "SEI"] ->
   result (getTradeSignal symbol) w' = Done (Some SELL)) /\
  (toUpperCase symbol ∈ ["ETH"; "SOL"; "HYPE"; "BONK"] ->
   result (getTradeSignal symbol) w' = Done (Some BUY)).
Proof.
  intros Hrand w'. unfold w'. split; intros Hin; pick_symbol Hin.
  - apply (refreshed_sell _ _ _ 0%nat _ 0.0123%Q);
      [by rewrite Hin | done | vm_compute; reflexivity].
  - apply (refreshed_sell _ _ _ 4%nat _ 0.0089%Q);
      [by rewrite Hin | done | vm_compute; reflexivity].
  - apply (refreshed_sell _ _ _ 6%nat _ 0.0067%Q);
      [by rewrite Hin | done | vm_compute; reflexivity].
  - apply (refreshed_buy _ _ _ 1%nat _ (-0.0087)%Q);
      [by rewrite Hin | done | vm_compute; reflexivity].
  - apply (refreshed_buy _ _ _ 3%nat _ (-0.0156)%Q);
      [by rewrite Hin | done | vm_compute; reflexivity].
  - apply (refreshed_buy _ _ _ 7%nat _ (-0.0134)%Q);
      [by rewrite Hin | done | vm_compute; reflexivity].
  - apply (refreshed_buy _ _ _ 9%nat _ (-0.0078)%Q);
      [by rewrite Hin | done | vm_compute; reflexivity].
Qed.

Lemma offline_unit_interval : unit_interval (random offline).
Proof. intros i. split; [unfold Qle | unfold Qlt]; simpl; lia. Defined.

Lemma settled_signals_after_refresh_witness :
  result (getTradeSignal "btc") (exec (fetchCryptoData [] 0) offline)
    = Done (Some SELL) /\
  result (getTradeSignal "Eth") (exec (fetchCryptoData [] 0) offline)
    = Done (Some BUY).
Proof.
  split.
  - apply (settled_signals_after_refresh [] 0%nat offline "btc"
             offline_unit_interval).
    apply list_elem_of_here.
  - apply (settled_signals_after_refresh [] 0%nat offline "Eth"
             offline_unit_interval).
    apply list_elem_of_here.
Defined.

(** X10: after any refresh, with a random source in [0, 1), BNB and SUI
    get no signal: their generated rate is never zero and always strictly
    inside the band, whatever their 24h change. *)
Theorem bnb_sui_unsignalled_after_refresh seen retryCount w symbol :
  unit_interval (random w) ->
  toUpperCase symbol ∈ ["BNB"; "SUI"] ->
  result (getTradeSignal symbol) (exec (fetchCryptoData seen retryCount) w)
  = Done None.
Proof.
  intros Hrand Hin. pick_symbol Hin.
  - apply (refreshed_quiet _ _ _ 2%nat _ 0.0034%Q);
      [by rewrite Hin | done | vm_compute; reflexivity].
  - apply (refreshed_quiet _ _ _ 5%nat _ (-0.0023)%Q);
      [by rewrite Hin | done | vm_compute; reflexivity].
Qed.

Lemma bnb_sui_unsignalled_after_refresh_witness :
  result (getTradeSignal "bnb") (exec (fetchCryptoData [] 0) offline)
  = Done None.
Proof.
  apply (bnb_sui_unsignalled_after_refresh [] 0%nat offline "bnb"
           offline_unit_interval).
  apply list_elem_of_here.
Defined.

(** X11: after any refresh, with a random source in [0, 1), DOGE shows
    SELL when its draw (the ninth of the cycle) is above 0.75, that is from
    the next double [0.75 + 2^-53] on, and no signal when the draw is at
    most 0.75; at 0.75 itself the rounded rate is just below 0.005.  It
    never shows BUY. *)
Theorem doge_signal_after_refresh seen retryCount w symbol :
  unit_interval (random w) ->
  toUpperCase symbol = "DOGE" ->
  let u := random w (draws w + 8)%nat in
  let w' := exec (fetchCryptoData seen retryCount) w in
  ((0.75 + 1 / inject_Z (2 ^ 53) <= u)%Q ->
   result (getTradeSignal symbol) w' = Done (Some SELL)) /\
  ((u <= 0.75)%Q -> result (getTradeSignal symbol) w' = Done None) /\
  result (getTradeSignal symbol) w' <> Done (Some BUY).
Proof.
  intros Hrand Hs u w'.
  assert (Hj : baseRates !! 8%nat = Some (toUpperCase symbol, 0.0045%Q))
    by (by rewrite Hs).
  pose proof (refreshed_rate seen retryCount w 8 _ _ Hj) as Hr.
  fold u in Hr. fold w' in Hr.
  destruct (Hrand (draws w + 8)%nat) as [H0 H1]. fold u in H0, H1.
  assert (Hpos : (0.003 < noisy 0.0045 u)%Q).
  { apply Qlt_le_trans with (noisy 0.0045 0);
      [apply Qlt_alt; vm_compute; reflexivity | by apply noisy_mono]. }
  assert (Hsell : (0.75 + 1 / inject_Z (2 ^ 53) <= u)%Q ->
                  result (getTradeSignal symbol) w' = Done (Some SELL)).
  { intros Hu.
    assert (Hge : (0.005 <= noisy 0.0045 u)%Q).
    { apply Qle_trans with (noisy 0.0045 (0.75 + 1 / inject_Z (2 ^ 53)));
        [apply Qle_bool_iff; vm_compute; reflexivity | by apply noisy_mono]. }
    revert Hr Hpos Hge. generalize (noisy 0.0045 u). intros rate Hr Hpos Hge.
    rewrite (getTradeSignal_truthy _ _ _ Hr)
      by (apply Qeq_bool_nonzero; lra).
    apply Qle_bool_iff in Hge. by rewrite Hge. }
  assert (Hnone : (u <= 0.75)%Q ->
                  result (getTradeSignal symbol) w' = Done None).
  { intros Hu.
    assert (Hlt : (noisy 0.0045 u < 0.005)%Q).
    { apply Qle_lt_trans with (noisy 0.0045 0.75);
        [by apply noisy_mono | apply Qlt_alt; vm_compute; reflexivity]. }
    revert Hr Hpos Hlt. generalize (noisy 0.0045 u). intros rate Hr Hpos Hlt.
    apply (in_band_returns_null _ _ _ Hr); lra. }
  split; [exact Hsell|]. split; [exact Hnone|].
  revert Hr Hpos. generalize (noisy 0.0045 u). intros rate Hr Hpos.
  rewrite (getTradeSignal_truthy _ _ _ Hr) by (apply Qeq_bool_nonzero; lra).
  destruct (Qle_bool 0.005 rate); [discriminate|].
  rewrite Qle_bool_false by lra. discriminate.
Qed.

Lemma constant_noise_unit_interval (u : Q) :
  (0 <= u)%Q -> (u < 1)%Q -> unit_interval (random (constant_noise u)).
Proof. intros H0 H1 i. split; assumption. Defined.

Lemma doge_signal_after_refresh_witness :
  result (getTradeSignal "doge")
         (exec (fetchCryptoData [] 0) (constant_noise 0.75)) = Done None /\
  result (getTradeSignal "doge")
         (exec (fetchCryptoData [] 0)
               (constant_noise (0.75 + 1 / inject_Z (2 ^ 53))))
    = Done (Some SELL).
Proof.
  split.
  - assert (Hu : unit_interval (random (constant_noise 0.75))).
    { apply constant_noise_unit_interval;
        [unfold Qle | unfold Qlt]; simpl; lia. }
    pose proof (doge_signal_after_refresh [] 0%nat (constant_noise 0.75)
                  "doge" Hu eq_refl) as H.
    cbv zeta in H. destruct H as (_ & Hnone & _).
    apply Hnone. apply Qle_refl.
  - assert (Hu : unit_interval
                   (random (constant_noise (0.75 + 1 / inject_Z (2 ^ 53))))).
    { apply constant_noise_unit_interval;
        [apply Qle_bool_iff | apply Qlt_alt]; vm_compute; reflexivity. }
    pose proof (doge_signal_after_refresh [] 0%nat
                  (constant_noise (0.75 + 1 / inject_Z (2 ^ 53)))
                  "doge" Hu eq_refl) as H.
    cbv zeta in H. destruct H as (Hsell & _ & _).
    apply Hsell. apply Qle_refl.
Defined.

(** X12: a symbol outside the ten tracked ones has no funding-rate entry
    after a refresh, so it always gets a signal: the momentum rule on the
    installed records, or else the fixed default. *)
Theorem untracked_symbol_is_signalled seen retryCount w symbol :
  toUpperCase symbol ∉ baseRates.*1 ->
  let w' := exec (fetchCryptoData seen retryCount) w in
  fundingRates (state w') !! toUpperCase symbol = None /\
  exists s, result (getTradeSignal symbol) w' = Done (Some s) /\
            (s = BUY \/ s = SELL).
Proof.
  intros Hnot w'.
  assert (Hr : fundingRates (state w') !! toUpperCase symbol = None).
  { unfold w', exec. rewrite fetchCryptoData_world.
    cbn [snd state world_after]. unfold cells_after. cbn [fundingRates].
    by rewrite noisy_rates_lookup_other. }
  split; [exact Hr|].
  rewrite getTradeSignal_falsy by (by rewrite Hr).
  eexists. split; [reflexivity|].
  unfold default_signal.
  destruct (find _ _) as [c|];
    repeat match goal with
           | |- context [if ?b then _ else _] => destruct b
           end; auto.
Qed.

Lemma untracked_symbol_is_signalled_witness :
  exists s,
    result (getTradeSignal "xrp")
           (exec (fetchCryptoData [] 0) (serving [xrp])) = Done (Some s) /\
    (s = BUY \/ s = SELL).
Proof.
  apply (untracked_symbol_is_signalled [] 0%nat (serving [xrp]) "xrp").
  cbn. intros Hin.
  repeat (apply elem_of_cons in Hin as [Hin|Hin]; [discriminate Hin|]).
  by apply elem_of_nil in Hin.
Defined.

(** ** [getTradeSignal] and [getFundingSignal] *)

Lemma getFundingSignal_run symbol w :
  result (getFundingSignal symbol) w =
  Done match fundingRates (state w) !! toUpperCase symbol with
       | Some r =>
           if Qeq_bool r 0 then None
           else if Qle_bool 0.005 r then Some SELL
           else if Qle_bool r (-0.005) then Some BUY
           else None
       | None => None
       end.
Proof.
  unfold result, getFundingSignal, bind, useFundingRates, ret.
  cbn beta iota.
  destruct (fundingRates (state w) !! toUpperCase symbol) as [r|];
    [|reflexivity].
  cbn [falsy]. destruct (Qeq_bool r 0); [reflexivity|].
  destruct (Qle_bool 0.005 r); [reflexivity|].
  destruct (Qle_bool r (-0.005)); reflexivity.
Qed.

(** X13: [getTradeSignal] returns [null] exactly when the symbol has a
    funding-rate entry that is not zero and lies strictly inside the band;
    in every other case it returns a signal. *)
Theorem no_signal_iff symbol w :
  result (getTradeSignal symbol) w = Done None <->
  exists r, fundingRates (state w) !! toUpperCase symbol = Some r /\
            ~ (r == 0)%Q /\ (-0.005 < r)%Q /\ (r < 0.005)%Q.
Proof.
  split.
  - intros Hnone.
    destruct (fundingRates (state w) !! toUpperCase symbol) as [r|] eqn:Hr.
    + destruct (Qeq_bool r 0) eqn:Hz.
      * rewrite getTradeSignal_falsy in Hnone by (by rewrite Hr).
        discriminate Hnone.
      * rewrite (getTradeSignal_truthy _ _ _ Hr Hz) in Hnone.
        destruct (Qle_bool 0.005 r) eqn:Hhi; [discriminate Hnone|].
        destruct (Qle_bool r (-0.005)) eqn:Hlo; [discriminate Hnone|].
        exists r. split; [reflexivity|]. split.
        -- intros Heq. apply Qeq_bool_iff in Heq. congruence.
        -- split; by apply Qle_bool_false_lt.
    + rewrite getTradeSignal_falsy in Hnone by (by rewrite Hr).
      discriminate Hnone.
  - intros (r & Hr & Hz & Hlo & Hhi).
    by apply (in_band_returns_null _ _ _ Hr).
Qed.

(** X14: [getTradeSignal] extends [getFundingSignal].  A signal given by
    [getFundingSignal] is the one [getTradeSignal] gives, and the two
    differ exactly when the entry is absent or zero, where
    [getFundingSignal] gives [null] and [getTradeSignal] a signal. *)
Theorem funding_signal_is_kept symbol w :
  (forall s, result (getFundingSignal symbol) w = Done (Some s) ->
             result (getTradeSignal symbol) w = Done (Some s)) /\
  (result (getFundingSignal symbol) w <> result (getTradeSignal symbol) w
   <-> falsy (fundingRates (state w) !! toUpperCase symbol) = true).
Proof.
  rewrite getFundingSignal_run.
  destruct (fundingRates (state w) !! toUpperCase symbol) as [r|] eqn:Hr.
  - destruct (Qeq_bool r 0) eqn:Hz.
    + rewrite getTradeSignal_falsy by (by rewrite Hr). cbn [falsy].
      rewrite Hz. split; [discriminate|]. split; [reflexivity|discriminate].
    + rewrite (getTradeSignal_truthy _ _ _ Hr Hz). cbn [falsy]. rewrite Hz.
      split; [tauto|]. split; [congruence | discriminate].
  - rewrite getTradeSignal_falsy by (by rewrite Hr). cbn [falsy].
    split; [discriminate|]. split; [reflexivity|discriminate].
Qed.

(** X15: both signal functions see the symbol only through its
    upper-case form: two spellings of one symbol give the same answer. *)
Theorem signals_ignore_letter_case s1 s2 w :
  toUpperCase s1 = toUpperCase s2 ->
  getTradeSignal s1 w = getTradeSignal s2 w /\
  getFundingSignal s1 w = getFundingSignal s2 w.
Proof.
  intros Heq. unfold getTradeSignal, getFundingSignal, same_symbol.
  by rewrite Heq.
Qed.

Lemma signals_ignore_letter_case_witness :
  getTradeSignal "btc" btc_eth_render = getTradeSignal "BtC" btc_eth_render.
Proof.
  apply (signals_ignore_letter_case "btc" "BtC" btc_eth_render).
  reflexivity.
Defined.

(** ** Letter case and string append *)

Lemma upper_lower_ascii c : upper_ascii (lower_ascii c) = upper_ascii c.
Proof. destruct c as [[] [] [] [] [] [] [] []]; reflexivity. Qed.

Lemma lower_upper_ascii c : lower_ascii (upper_ascii c) = lower_ascii c.
Proof. destruct c as [[] [] [] [] [] [] [] []]; reflexivity. Qed.

Lemma toUpperCase_toLowerCase s : toUpperCase (toLowerCase s) = toUpperCase s.
Proof.
  induction s as [|c s IH]; [reflexivity|].
  cbn. by rewrite upper_lower_ascii, IH.
Qed.

Lemma toLowerCase_toUpperCase s : toLowerCase (toUpperCase s) = toLowerCase s.
Proof.
  induction s as [|c s IH]; [reflexivity|].
  cbn. by rewrite lower_upper_ascii, IH.
Qed.

Lemma length_append (s t : string) :
  String.length (s ++ t) = (String.length s + String.length t)%nat.
Proof. induction s as [|c s IH]; simpl; [reflexivity | by f_equal]. Qed.

Lemma append_inv_tail (t : string) : forall s1 s2 : string,
  s1 ++ t = s2 ++ t -> s1 = s2.
Proof.
  induction s1 as [|c1 s1 IH]; intros [|c2 s2] H.
  - reflexivity.
  - apply (f_equal String.length) in H.
    rewrite !length_append in H. cbn in H. lia.
  - apply (f_equal String.length) in H.
    rewrite !length_append in H. cbn in H. lia.
  - cbn in H. injection H as -> H. f_equal. by apply IH.
Qed.

(** ** [openTradingViewChart] *)

Lemma symbolMap_own_upper key v :
  symbolMap_own !! key = Some v -> v = toUpperCase key ++ "USDT".
Proof.
  intros H. unfold symbolMap_own in H. apply elem_of_list_to_map_2 in H.
  repeat (apply elem_of_cons in H as [H|H];
          [injection H as -> ->; reflexivity|]).
  by apply elem_of_nil in H.
Qed.

Lemma symbolMap_own_inherited key :
  key ∈ inherited_keys -> symbolMap_own !! key = None.
Proof.
  intros H. unfold inherited_keys in H.
  repeat (apply elem_of_cons in H as [->|H]; [reflexivity|]).
  by apply elem_of_nil in H.
Qed.

Lemma tradingViewSymbol_plain inherited_text symbol :
  toLowerCase symbol ∉ inherited_keys ->
  tradingViewSymbol inherited_text symbol = toUpperCase symbol ++ "USDT".
Proof.
  intros Hk. unfold tradingViewSymbol, symbolMap.
  destruct (symbolMap_own !! toLowerCase symbol) as [v|] eqn:Hv.
  - apply symbolMap_own_upper in Hv.
    by rewrite toUpperCase_toLowerCase in Hv.
  - by rewrite bool_decide_eq_false_2.
Qed.

(** X16: for a symbol of ASCII characters, the symbol sent to the chart
    site is the upper-cased symbol followed by [USDT], for the ten
    tabulated symbols as for any other, in any letter case.  The only
    exceptions are the names whose lower-case form is [constructor] or
    [__proto__]: there the lookup finds the inherited object, and its text
    is used instead. *)
Theorem tradingViewSymbol_form inherited_text symbol :
  is_ascii_string symbol = true ->
  (toLowerCase symbol ∉ inherited_keys ->
   tradingViewSymbol inherited_text symbol = toUpperCase symbol ++ "USDT") /\
  (toLowerCase symbol ∈ inherited_keys ->
   tradingViewSymbol inherited_text symbol =
   inherited_text (toLowerCase symbol)).
Proof.
  intros _. split; intros Hk.
  - by apply tradingViewSymbol_plain.
  - unfold tradingViewSymbol, symbolMap.
    rewrite symbolMap_own_inherited by done.
    by rewrite bool_decide_eq_true_2.
Qed.

Lemma tradingViewSymbol_form_witness :
  tradingViewSymbol v8_inherited_text "Bonk" = "BONKUSDT" /\
  tradingViewSymbol v8_inherited_text "xrp" = "XRPUSDT" /\
  tradingViewSymbol v8_inherited_text "Constructor" =
    v8_inherited_text "constructor".
Proof.
  pose proof (tradingViewSymbol_form v8_inherited_text "Bonk" eq_refl)
    as [H1 _].
  pose proof (tradingViewSymbol_form v8_inherited_text "xrp" eq_refl)
    as [H2 _].
  pose proof (tradingViewSymbol_form v8_inherited_text "Constructor" eq_refl)
    as [_ H3].
  split; [|split].
  - apply H1. intros Hin.
    repeat (apply elem_of_cons in Hin as [Hin|Hin]; [discriminate Hin|]).
    by apply elem_of_nil in Hin.
  - apply H2. intros Hin.
    repeat (apply elem_of_cons in Hin as [Hin|Hin]; [discriminate Hin|]).
    by apply elem_of_nil in Hin.
  - apply H3. apply list_elem_of_here.
Defined.

(** X17: for symbols of ASCII characters, two symbols that differ only in
    letter case open the same chart with the same window arguments; and,
    the two inherited names apart, two symbols that open the same chart
    differ only in letter case. *)
Theorem same_chart_iff_same_symbol inherited_text s1 s2 :
  is_ascii_string s1 = true ->
  is_ascii_string s2 = true ->
  (toUpperCase s1 = toUpperCase s2 ->
   openTradingViewChart inherited_text s1 =
   openTradingViewChart inherited_text s2) /\
  (toLowerCase s1 ∉ inherited_keys ->
   toLowerCase s2 ∉ inherited_keys ->
   openTradingViewChart inherited_text s1 =
   openTradingViewChart inherited_text s2 ->
   toUpperCase s1 = toUpperCase s2).
Proof.
  intros _ _. split.
  - intros Hup.
    assert (Hlow : toLowerCase s1 = toLowerCase s2).
    { rewrite <- (toLowerCase_toUpperCase s1), Hup.
      apply toLowerCase_toUpperCase. }
    unfold openTradingViewChart, tradingViewUrl, tradingViewSymbol.
    by rewrite Hup, Hlow.
  - intros H1 H2 Hsame.
    apply (f_equal url) in Hsame. cbn [url openTradingViewChart] in Hsame.
    unfold tradingViewUrl in Hsame.
    rewrite (tradingViewSymbol_plain inherited_text s1 H1) in Hsame.
    rewrite (tradingViewSymbol_plain inherited_text s2 H2) in Hsame.
    apply String.app_inj in Hsame.
    apply append_inv_tail in Hsame.
    by apply append_inv_tail in Hsame.
Qed.

Lemma same_chart_iff_same_symbol_witness :
  openTradingViewChart v8_inherited_text "bonk" =
  openTradingViewChart v8_inherited_text "BONK".
Proof.
  apply (same_chart_iff_same_symbol v8_inherited_text "bonk" "BONK");
    reflexivity.
Defined.

Example chart_of_btc :
  openTradingViewChart v8_inherited_text "btc" =
  {| url := tradingViewUrl_prefix ++ "BTCUSDT" ++ tradingViewUrl_suffix;
     target := "_blank"; features := "noopener,noreferrer" |}.
Proof. reflexivity. Qed.

(** ** [toFixed], [formatVolume] and the 24h label *)

Lemma Qfloor_unique (x : Q) (n : Z) :
  (inject_Z n <= x)%Q -> (x < inject_Z n + 1)%Q -> Qfloor x = n.
Proof.
  intros Hlo Hhi.
  pose proof (Qfloor_le x) as H1. pose proof (Qlt_floor x) as H2.
  rewrite inject_Z_plus in H2. change (inject_Z 1) with 1%Q in H2.
  assert (Ha : (inject_Z (Qfloor x) < inject_Z (n + 1))%Q)
    by (rewrite inject_Z_plus; change (inject_Z 1) with 1%Q; lra).
  assert (Hb : (inject_Z n < inject_Z (Qfloor x + 1))%Q)
    by (rewrite inject_Z_plus; change (inject_Z 1) with 1%Q; lra).
  rewrite <- Zlt_Qlt in Ha, Hb. lia.
Qed.

(** [lra] after division by a constant is turned into a product. *)
Ltac Qlra :=
  unfold Qdiv, inject_Z;
  repeat match goal with
         | |- context [(/ ?c)%Q] =>
             let r := eval cbv in (/ c)%Q in change (/ c)%Q with r
         end;
  lra.

Lemma pow10_2 : pow10 2 = 100%Q.
Proof. reflexivity. Qed.

Lemma pow10_21 : pow10 21 = 1000000000000000000000%Q.
Proof. reflexivity. Qed.

Lemma billion : 1e9%Q = 1000000000%Q.
Proof. reflexivity. Qed.

Lemma million : 1e6%Q = 1000000%Q.
Proof. reflexivity. Qed.

(** [toFixed] with two digits, on a number in [0, 10^21) whose rounded
    hundredths are known. *)
Lemma toFixed_2_nonneg Number_toString (x : Q) (n : Z) :
  (0 <= x)%Q -> (x < 1000000000000000000000)%Q ->
  (inject_Z n <= x * 100 + 1 / 2)%Q ->
  (x * 100 + 1 / 2 < inject_Z n + 1)%Q ->
  toFixed Number_toString x 2 =
  let m := zeros (3 - String.length (string_of_Z n)) ++ string_of_Z n in
  substring 0 (String.length m - 2) m ++ "."
  ++ substring (String.length m - 2) 2 m.
Proof.
  intros H0 Hbig Hlo Hhi. unfold toFixed.
  assert (Hpos : Qle_bool 0 x = true) by (by apply Qle_bool_iff).
  rewrite Hpos, pow10_21, pow10_2, Qle_bool_false by exact Hbig.
  rewrite (Qfloor_unique _ n Hlo Hhi). reflexivity.
Qed.

(** X18: a volume from 999,995,000 up to, but not including, one billion
    is shown as [$1000.00M]: it is still below the threshold of the [B]
    form, and rounding to two digits carries it to 1000. *)
Theorem formatVolume_rollover Number_toString toLocaleString (volume : Q) :
  (999995000 <= volume)%Q -> (volume < 1000000000)%Q ->
  formatVolume Number_toString toLocaleString volume = "$1000.00M".
Proof.
  intros Hlo Hhi. unfold formatVolume. rewrite billion, million.
  rewrite Qle_bool_false by lra.
  assert (Hm : Qle_bool 1000000 volume = true)
    by (apply Qle_bool_iff; lra).
  rewrite Hm.
  (* the quotient, rounded, stays between the roundings of its bounds *)
  assert (H1 : (fl 999.995 <= fl (volume / 1000000))%Q)
    by (apply fl_mono; Qlra).
  assert (H2 : (fl (volume / 1000000) <= fl 1000)%Q)
    by (apply fl_mono; Qlra).
  assert (H3 : (999.995 <= fl 999.995)%Q)
    by (apply Qle_bool_iff; vm_compute; reflexivity).
  assert (H4 : (fl 1000 <= 1000)%Q)
    by (apply Qle_bool_iff; vm_compute; reflexivity).
  revert H1 H2 H3 H4.
  generalize (fl (volume / 1000000)) (fl 999.995) (fl 1000).
  intros x a b H1 H2 H3 H4.
  rewrite (toFixed_2_nonneg _ x 100000); [reflexivity | | | |]; Qlra.
Qed.

Lemma formatVolume_rollover_witness :
  formatVolume no_text no_text 999999999 = "$1000.00M".
Proof.
  apply (formatVolume_rollover no_text no_text 999999999%Q);
    [unfold Qle | unfold Qlt]; simpl; lia.
Defined.

(** The quotient is rounded before [toFixed] sees it: 1.005 is not a
    double, and the double nearest to it lies below the tie. *)
Example formatVolume_rounded_quotient :
  formatVolume no_text no_text 1005000000 = "$1.00B".
Proof. vm_compute. reflexivity. Qed.

(** The fallback volumes, as the cards show them. *)
Example formatVolume_fallback :
  map (fun c => formatVolume no_text no_text (CryptoData.total_volume c))
      mockCryptoData =
  ["$18.50B"; "$12.30B"; "$890.00M"; "$2.10B"; "$450.00M"; "$180.00M";
   "$95.00M"; "$320.00M"; "$890.00M"; "$67.00M"].
Proof. reflexivity. Qed.

Lemma toFixed_sign Number_toString (x : Q) (f : nat) :
  exists rest,
    toFixed Number_toString x f =
    (if Qle_bool 0 x then "" else "-") ++ rest.
Proof.
  unfold toFixed.
  destruct (Qle_bool (pow10 21) _); [eauto|].
  destruct (f =? 0)%nat; eauto.
Qed.

(** X19: the 24h label always carries one sign: it starts with [+] for a
    change of at least 0 and with [-] below 0.  A change that rounds to
    zero keeps its sign: [+0.00%] from 0 up to 0.005, [-0.00%] above
    -0.005 and below 0. *)
Theorem change24hLabel_signed Number_toString (crypto : CryptoData.t) :
  let x := change24h crypto in
  let label := change24hLabel Number_toString crypto in
  ((0 <= x)%Q -> exists rest, label = "+" ++ rest) /\
  ((x < 0)%Q -> exists rest, label = "-" ++ rest) /\
  ((0 <= x)%Q -> (x < 0.005)%Q -> label = "+0.00%") /\
  ((-0.005 < x)%Q -> (x < 0)%Q -> label = "-0.00%").
Proof.
  intros x label. unfold label, change24hLabel. fold x.
  split; [|split; [|split]].
  - intros H0. apply Qle_bool_iff in H0. rewrite H0. eauto.
  - intros Hneg.
    assert (Hn : Qle_bool 0 x = false) by (by apply Qle_bool_false).
    destruct (toFixed_sign Number_toString x 2) as [rest Hrest].
    rewrite Hrest, !Hn. cbn. eauto.
  - intros H0 Hsmall.
    rewrite (toFixed_2_nonneg _ x 0); [|lra|lra|Qlra|Qlra].
    apply Qle_bool_iff in H0. by rewrite H0.
  - intros Hsmall Hneg.
    assert (Hn : Qle_bool 0 x = false) by (by apply Qle_bool_false).
    unfold toFixed. rewrite !Hn.
    rewrite pow10_21, pow10_2, Qle_bool_false by lra.
    rewrite (Qfloor_unique _ 0); [reflexivity| |]; Qlra.
Qed.
